(** * The u-boot bootloader facade of snapd (bootloader/uboot.go)

  A shallow embedding of [bootloader/uboot.go]: the path state
  ([ubootBase]), the two environment variants ([ubootRedundEnv],
  [ubootNoRedundEnv]) and the facade ([uboot]) with its operations.

  Calls that leave the file (os, path/filepath, osutil, ubootenv, the
  generic installer, the kernel-asset helpers) are the nodes of a small
  program tree; a handler answers them, and running a program gives its
  result together with the list of calls it made, in order. *)

From Stdlib Require Import ZArith Ascii String.
From stdpp Require Import base gmap strings list.

Local Open Scope string_scope.
Local Open Scope Z_scope.
Local Open Scope list_scope.

(** ** path/filepath (Unix) *)

(** The lexical path functions of Go's standard library, for the Unix
  build ([Separator] is a slash and there are no volume names). [Clean]
  works on the elements between separators, following the four rules of
  its documentation: separators are collapsed, [.] elements are dropped,
  an inner [..] removes the element before it, and a [..] that would climb
  above the root of a rooted path is dropped. *)
Module filepath.

Definition Separator : ascii := "/"%char.

Definition IsPathSeparator (c : ascii) : bool := Ascii.eqb c Separator.

(** [strings.Split(s, "/")]: the elements between separators; never
    empty, [split "" = [""]]. *)
Fixpoint split (s : string) : list string :=
  match s with
  | EmptyString => [EmptyString]
  | String c s' =>
      if IsPathSeparator c then EmptyString :: split s'
      else match split s' with
           | e :: es => String c e :: es
           | [] => [String c EmptyString]
           end
  end.

(** [strings.Join(elems, "/")]. *)
Fixpoint join_sep (elems : list string) : string :=
  match elems with
  | [] => ""
  | [e] => e
  | e :: es => e +:+ "/" +:+ join_sep es
  end.

(** One element read by [Clean]. The output is kept as the list of the
    elements written so far, last written first. *)
Definition clean_step (rooted : bool) (out : list string) (e : string)
  : list string :=
  if String.eqb e "" then out               (* empty path element *)
  else if String.eqb e "." then out         (* . element *)
  else if String.eqb e ".." then            (* .. element *)
    match out with
    | top :: rest =>
        if String.eqb top ".."
        then (if rooted then out else e :: out)
        else rest                           (* can backtrack *)
    | [] => if rooted then out else [e]     (* cannot backtrack *)
    end
  else e :: out.                            (* real path element *)

Definition clean_elems (rooted : bool) (path : string) : list string :=
  fold_left (clean_step rooted) (split path) [].

Definition is_rooted (path : string) : bool :=
  match path with
  | String c _ => IsPathSeparator c
  | EmptyString => false
  end.

Definition render (rooted : bool) (out : list string) : string :=
  if rooted then "/" +:+ join_sep (reverse out)
  else match out with
       | [] => "."                          (* turn empty string into "." *)
       | _ => join_sep (reverse out)
       end.

Definition Clean (path : string) : string :=
  if String.eqb path "" then "."
  else render (is_rooted path) (clean_elems (is_rooted path) path).

(** [Join] ignores leading empty elements, joins the rest with the
    separator and cleans the result; all elements empty gives [""]. *)
Fixpoint Join (elem : list string) : string :=
  match elem with
  | [] => ""
  | e :: es => if String.eqb e "" then Join es else Clean (join_sep elem)
  end.

(** [path[:i+1]] for [i] the index of the last separator of [path]. *)
Fixpoint through_last_sep (path : string) : string :=
  match path with
  | EmptyString => EmptyString
  | String c s' =>
      if IsPathSeparator c || negb (String.eqb (through_last_sep s') "")
      then String c (through_last_sep s')
      else EmptyString
  end.

(** [Dir] is all but the last element of [path], cleaned. *)
Definition Dir (path : string) : string := Clean (through_last_sep path).

(** An element without a separator. *)
Fixpoint no_sep (s : string) : bool :=
  match s with
  | EmptyString => true
  | String c s' => negb (IsPathSeparator c) && no_sep s'
  end.

(** An element that [Clean] copies to its output. *)
Definition real (e : string) : Prop :=
  e ≠ "" ∧ e ≠ "." ∧ e ≠ ".." ∧ no_sep e = true.

(** The shape of the output of [Clean]: real elements, above the [..]
    elements that lead a path that is not rooted. *)
Definition cleaned (rooted : bool) (out : list string) : Prop :=
  ∃ names k, out = names ++ replicate k ".."
             ∧ Forall real names ∧ (rooted = true → k = 0%nat).

End filepath.

(** ** Values shared with the rest of the package *)

(** A Go [error] value, by its message; a function returning [error]
    returns [option error], [None] for [nil]. *)
Definition error : Type := string.

(** A Go result pair [(T, error)]. *)
Inductive result (T : Type) : Type :=
| Ok (v : T)
| Err (err : error).
Arguments Ok {T} v.
Arguments Err {T} err.

(** Modelled from the spec: the type [Role] is declared outside
    uboot.go; its values are None, Recovery and RunMode. *)
Inductive Role : Type := RoleNone | RoleRecovery | RoleRunMode.

Definition Role_eqb (a b : Role) : bool :=
  match a, b with
  | RoleNone, RoleNone | RoleRecovery, RoleRecovery | RoleRunMode, RoleRunMode => true
  | _, _ => false
  end.

(** Modelled from the spec: the struct [Options] is declared outside
    uboot.go; uboot.go reads its fields [Role] and [NoSlashBoot]. A
    [*Options] argument is an [option Options], [None] for [nil]. *)
Record Options : Type := mkOptions {
  blRole : Role;
  NoSlashBoot : bool
}.

(** Modelled from the spec: [ubootenv.OpenFlags] is a set of the two flags
    best-effort and single-copy; [flags_or] is the union [a|b]. *)
Record OpenFlags : Type := mkOpenFlags {
  bestEffort : bool;
  singleCopy : bool
}.

Definition NoFlags : OpenFlags := mkOpenFlags false false.
Definition OpenBestEffort : OpenFlags := mkOpenFlags true false.
Definition OpenNoRedundEnv : OpenFlags := mkOpenFlags false true.

Definition flags_or (a b : OpenFlags) : OpenFlags :=
  mkOpenFlags (bestEffort a || bestEffort b) (singleCopy a || singleCopy b).

(** Modelled from the spec: [ubootenv.Env], the environment store once
    it is open or created: the file it is saved to, its size in bytes, the
    flags it was opened with and the variables it holds. [Get] of a
    variable that is not set is the empty string; [Set] (here [Set_],
    the plain name being taken) stores the value in memory, and nothing
    reaches the disk before [Save]. *)
Record Env : Type := mkEnv {
  Env_fname : string;
  Env_size : Z;
  Env_flags : OpenFlags;
  Env_data : gmap string string
}.

Definition Get (env : Env) (name : string) : string :=
  default "" (Env_data env !! name).

Definition Set_ (env : Env) (name value : string) : Env :=
  mkEnv (Env_fname env) (Env_size env) (Env_flags env)
        (<[name := value]> (Env_data env)).

(** [os.FileInfo], of which uboot.go reads the size only (an int64). *)
Record FileInfo : Type := mkFileInfo { Size : Z }.

(** Modelled from the spec: [snap.PlaceInfo], the revision of a snap, of
    which uboot.go calls [Filename()] only. *)
Record PlaceInfo : Type := mkPlaceInfo { Filename : string }.

(** Modelled from the spec: [snap.Container], the archive of a snap,
    passed through to the asset helper unopened. *)
Inductive Container : Type := container (path : string).

(** ** Calls that leave uboot.go *)

Inductive call : Type :=
| os_Stat (name : string)
| os_MkdirAll (path : string) (perm : Z)
| ubootenv_Create (fname : string) (size : Z)
| ubootenv_CreateWithFlags (fname : string) (size : Z) (flags : OpenFlags)
| ubootenv_OpenWithFlags (fname : string) (flags : OpenFlags)
| Env_Save (env : Env)
| genericInstallBootConfig (gadgetFile systemFile : string)
| osutil_FileExists (path : string)
| extractKernelAssetsToBootDir (dstDir : string) (snapf : Container) (assets : list string)
| removeKernelAssetsFromBootDir (bootDir : string) (s : PlaceInfo).

(** What each call returns. *)
Definition resp (c : call) : Type :=
  match c with
  | os_Stat _ => result FileInfo
  | os_MkdirAll _ _ => option error
  | ubootenv_Create _ _ => result Env
  | ubootenv_CreateWithFlags _ _ _ => result Env
  | ubootenv_OpenWithFlags _ _ => result Env
  | Env_Save _ => option error
  | genericInstallBootConfig _ _ => option error
  | osutil_FileExists _ => bool
  | extractKernelAssetsToBootDir _ _ _ => option error
  | removeKernelAssetsFromBootDir _ _ => option error
  end.

(** A Go function body: it returns, panics, or makes a call and goes on
    with the answer. *)
Inductive Prog (A : Type) : Type :=
| Ret (a : A)
| Panic (msg : string)
| Call (c : call) (k : resp c → Prog A).
Arguments Ret {A} a.
Arguments Panic {A} msg.
Arguments Call {A} c k.

Fixpoint Prog_bind {A B} (f : A → Prog B) (p : Prog A) : Prog B :=
  match p with
  | Ret a => f a
  | Panic msg => Panic msg
  | Call c k => Call c (λ r, Prog_bind f (k r))
  end.

#[global] Instance Prog_ret : MRet Prog := λ A a, Ret a.
#[global] Instance Prog_mbind : MBind Prog := λ A B f p, Prog_bind f p.

Definition do_call (c : call) : Prog (resp c) := Call c Ret.

(** How a body ended. *)
Inductive outcome (A : Type) : Type :=
| Done (a : A)
| Panicked (msg : string).
Arguments Done {A} a.
Arguments Panicked {A} msg.

(** The world outside answers every call and moves on. *)
Definition handler (W : Type) : Type := ∀ c : call, W → resp c * W.

Record ran (W A : Type) : Type := mkRan {
  ended : outcome A;
  calls : list call;
  world : W
}.
Arguments mkRan {W A} ended calls world.
Arguments ended {W A} r.
Arguments calls {W A} r.
Arguments world {W A} r.

(** The answer to call [c] in world [w], and the world after it. *)
Definition answer {W} (h : handler W) (c : call) (w : W) : resp c := (h c w).1.
Definition after {W} (h : handler W) (c : call) (w : W) : W := (h c w).2.

(** Running a body: how it ended, the calls it made in order, and the
    world it left. *)
Fixpoint run {W A} (h : handler W) (p : Prog A) (w : W) : ran W A :=
  match p with
  | Ret a => mkRan (Done a) [] w
  | Panic msg => mkRan (Panicked msg) [] w
  | Call c k =>
      let r := run h (k (answer h c w)) (after h c w) in
      mkRan (ended r) (c :: calls r) (world r)
  end.

Definition is_Save (c : call) : bool :=
  match c with Env_Save _ => true | _ => false end.

(** The number of [Save] calls among the calls made. *)
Definition saves (t : list call) : nat := length (filter (λ c, is_Save c = true) t).

(** ** uboot.go: the path state *)

Record ubootBase : Type := mkBase {
  rootdir : string;
  basedir : string;
  ubootEnvFileName : string
}.

Definition ubootBase_dir (u : ubootBase) : Prog string :=
  if String.eqb (rootdir u) "" then Panic "internal error: unset rootdir"
  else Ret (filepath.Join [rootdir u; basedir u]).

Definition ubootBase_rootDir (u : ubootBase) : string := rootdir u.

Definition ubootBase_envFile (u : ubootBase) : Prog string :=
  d ← ubootBase_dir u;
  Ret (filepath.Join [d; ubootEnvFileName u]).

(** ** uboot.go: the two variants *)

Definition ubootRedundEnv_name : string := "uboot".

Definition ubootRedundEnv_setDefaults (u : ubootBase) : ubootBase :=
  mkBase (rootdir u) "/boot/uboot/" "uboot.env".

(** The [switch] has two cases and the first falls through into the
    second. *)
Definition ubootRedundEnv_processBlOpts (u : ubootBase) (blOpts : option Options)
  : ubootBase :=
  match blOpts with
  | Some o =>
      if Role_eqb (blRole o) RoleRecovery || NoSlashBoot o then
        let u := mkBase (rootdir u) "/uboot/ubuntu/" (ubootEnvFileName u) in
        mkBase (rootdir u) (basedir u) "boot.sel"
      else if Role_eqb (blRole o) RoleRunMode then
        mkBase (rootdir u) (basedir u) "boot.sel"
      else u
  | None => u
  end.

Definition ubootRedundEnv_createEnv (fname : string) (size : Z) : Prog (result Env) :=
  do_call (ubootenv_Create fname size).

Definition ubootRedundEnv_openEnvWithFlags (fname : string) (flags : OpenFlags)
  : Prog (result Env) :=
  do_call (ubootenv_OpenWithFlags fname flags).

Definition ubootNoRedundEnv_name : string := "uboot-nr".

Definition ubootNoRedundEnv_setDefaults (u : ubootBase) : ubootBase :=
  mkBase (rootdir u) "/boot/uboot-nr/" "uboot.env".

Definition ubootNoRedundEnv_processBlOpts (u : ubootBase) (blOpts : option Options)
  : ubootBase :=
  match blOpts with
  | Some o =>
      if Role_eqb (blRole o) RoleRecovery || NoSlashBoot o then
        let u := mkBase (rootdir u) "/uboot-nr/ubuntu/" (ubootEnvFileName u) in
        mkBase (rootdir u) (basedir u) "boot.sel"
      else if Role_eqb (blRole o) RoleRunMode then
        mkBase (rootdir u) (basedir u) "boot.sel"
      else u
  | None => u
  end.

Definition ubootNoRedundEnv_createEnv (fname : string) (size : Z) : Prog (result Env) :=
  do_call (ubootenv_CreateWithFlags fname size OpenNoRedundEnv).

Definition ubootNoRedundEnv_openEnvWithFlags (fname : string) (flags : OpenFlags)
  : Prog (result Env) :=
  do_call (ubootenv_OpenWithFlags fname (flags_or flags OpenNoRedundEnv)).

(** ** uboot.go: the interface [ubootCommon] and the facade *)

(** The two types that implement [ubootCommon]; each embeds a
    [ubootBase]. *)
Inductive ubootCommon : Type :=
| ubootRedundEnv (b : ubootBase)
| ubootNoRedundEnv (b : ubootBase).

(** The struct [uboot] has the interface value as its only field. *)
Definition uboot : Type := ubootCommon.

Definition base (u : uboot) : ubootBase :=
  match u with ubootRedundEnv b | ubootNoRedundEnv b => b end.

Definition dir (u : uboot) : Prog string := ubootBase_dir (base u).
Definition rootDir (u : uboot) : string := ubootBase_rootDir (base u).
Definition envFile (u : uboot) : Prog string := ubootBase_envFile (base u).

Definition name (u : uboot) : string :=
  match u with
  | ubootRedundEnv _ => ubootRedundEnv_name
  | ubootNoRedundEnv _ => ubootNoRedundEnv_name
  end.

Definition setDefaults (u : uboot) : uboot :=
  match u with
  | ubootRedundEnv b => ubootRedundEnv (ubootRedundEnv_setDefaults b)
  | ubootNoRedundEnv b => ubootNoRedundEnv (ubootNoRedundEnv_setDefaults b)
  end.

Definition processBlOpts (u : uboot) (blOpts : option Options) : uboot :=
  match u with
  | ubootRedundEnv b => ubootRedundEnv (ubootRedundEnv_processBlOpts b blOpts)
  | ubootNoRedundEnv b => ubootNoRedundEnv (ubootNoRedundEnv_processBlOpts b blOpts)
  end.

Definition createEnv (u : uboot) (fname : string) (size : Z) : Prog (result Env) :=
  match u with
  | ubootRedundEnv _ => ubootRedundEnv_createEnv fname size
  | ubootNoRedundEnv _ => ubootNoRedundEnv_createEnv fname size
  end.

Definition openEnvWithFlags (u : uboot) (fname : string) (flags : OpenFlags)
  : Prog (result Env) :=
  match u with
  | ubootRedundEnv _ => ubootRedundEnv_openEnvWithFlags fname flags
  | ubootNoRedundEnv _ => ubootNoRedundEnv_openEnvWithFlags fname flags
  end.

Definition newUboot (rootdir : string) (blOpts : option Options) : uboot :=
  let u := ubootRedundEnv (mkBase rootdir "" "") in
  let u := setDefaults u in
  processBlOpts u blOpts.

Definition newUbootNoRedundEnv (rootdir : string) (blOpts : option Options) : uboot :=
  let u := ubootNoRedundEnv (mkBase rootdir "" "") in
  let u := setDefaults u in
  processBlOpts u blOpts.

Definition Name (u : uboot) : string := name u.

(** The receiver is a pointer and two branches assign to its fields, so
    the facade after the call is returned next to the error. *)
Definition InstallBootConfig (u : uboot) (gadgetDir : string) (blOpts : option Options)
  : Prog (uboot * option error) :=
  let gadgetFile := filepath.Join [gadgetDir; Name u +:+ ".conf"] in
  st ← do_call (os_Stat gadgetFile);
  match st with
  | Err err => Ret (u, Some err)
  | Ok st =>
      if Size st =? 0 then
        let u := processBlOpts u blOpts in
        f ← envFile u;
        err ← do_call (os_MkdirAll (filepath.Dir f) 493 (* 0755 *));
        match err with
        | Some err => Ret (u, Some err)
        | None =>
            f ← envFile u;
            env ← createEnv u f 4096;
            match env with
            | Err err => Ret (u, Some err)
            | Ok env =>
                err ← do_call (Env_Save env);
                match err with
                | Some _ => Ret (u, None)
                | None => Ret (u, None)
                end
            end
        end
      else
        let u := setDefaults u in
        if match blOpts with
           | Some o => Role_eqb (blRole o) RoleRecovery
           | None => false
           end
        then Ret (u, Some "non-empty uboot.env not supported on UC20+ yet")
        else
          systemFile ← envFile u;
          err ← do_call (genericInstallBootConfig gadgetFile systemFile);
          Ret (u, err)
  end.

Definition Present (u : uboot) : Prog (bool * option error) :=
  f ← envFile u;
  b ← (do_call (osutil_FileExists f) : Prog bool);
  Ret (b, None).

(** The body of the [range] loop of [SetBootVars], over the entries of
    the map in the order in which the runtime happens to produce them. *)
Fixpoint SetBootVars_range (env : Env) (dirty : bool) (kvs : list (string * string))
  : Env * bool :=
  match kvs with
  | [] => (env, dirty)
  | (k, v) :: rest =>
      if String.eqb (Get env k) v
      then SetBootVars_range env dirty rest           (* continue *)
      else SetBootVars_range (Set_ env k v) true rest
  end.

(** The entries whose value the store does not have yet, and the store
    after setting a list of entries. *)
Definition differing (env : Env) (kvs : list (string * string)) : list (string * string) :=
  filter (λ kv, Get env kv.1 ≠ kv.2) kvs.

Definition set_all (env : Env) (kvs : list (string * string)) : Env :=
  fold_left (λ env kv, Set_ env kv.1 kv.2) kvs env.

(** [SetBootVars] for one order of iteration over [values]. *)
Definition SetBootVars_in (u : uboot) (kvs : list (string * string))
  : Prog (option error) :=
  f ← envFile u;
  r ← openEnvWithFlags u f OpenBestEffort;
  match r with
  | Err err => Ret (Some err)
  | Ok env =>
      let '(env, dirty) := SetBootVars_range env false kvs in
      if dirty then do_call (Env_Save env) else Ret None
  end.

(** Go leaves the order of a [range] over a map unspecified;
    [map_to_list] is one such order, and the theorems below are stated for
    every order. *)
Definition SetBootVars (u : uboot) (values : gmap string string) : Prog (option error) :=
  SetBootVars_in u (map_to_list values).

(** [(nil, err)] is [Err err] and [(out, nil)] is [Ok out]. *)
Definition GetBootVars (u : uboot) (names : list string)
  : Prog (result (gmap string string)) :=
  let out : gmap string string := ∅ in
  f ← envFile u;
  r ← openEnvWithFlags u f OpenBestEffort;
  match r with
  | Err err => Ret (Err err)
  | Ok env =>
      Ret (Ok (fold_left (λ out name, <[name := Get env name]> out) names out))
  end.

Definition ExtractKernelAssets (u : uboot) (s : PlaceInfo) (snapf : Container)
  : Prog (option error) :=
  d ← dir u;
  let dstDir := filepath.Join [d; Filename s] in
  let assets := ["kernel.img"; "initrd.img"; "dtbs/*"] in
  do_call (extractKernelAssetsToBootDir dstDir snapf assets).

Definition ExtractRecoveryKernelAssets (u : uboot) (recoverySystemDir : string)
    (s : PlaceInfo) (snapf : Container) : Prog (option error) :=
  if String.eqb recoverySystemDir "" then
    Ret (Some "internal error: recoverySystemDir unset")
  else
    let recoverySystemUbootKernelAssetsDir :=
      filepath.Join [rootDir u; recoverySystemDir; "kernel"] in
    let assets := ["kernel.img"; "initrd.img"; "dtbs/*"] in
    do_call (extractKernelAssetsToBootDir recoverySystemUbootKernelAssetsDir snapf assets).

Definition RemoveKernelAssets (u : uboot) (s : PlaceInfo) : Prog (option error) :=
  d ← dir u;
  do_call (removeKernelAssetsFromBootDir d s).

(** ** The table of the specification *)

Inductive Variant : Type := Redundant | NonRedundant.

Definition new (v : Variant) (rootdir : string) (blOpts : option Options) : uboot :=
  match v with
  | Redundant => newUboot rootdir blOpts
  | NonRedundant => newUbootNoRedundEnv rootdir blOpts
  end.

Definition variant_of (u : uboot) : Variant :=
  match u with ubootRedundEnv _ => Redundant | ubootNoRedundEnv _ => NonRedundant end.

(** The flags with which a variant opens its store, in the words of the
    specification: the redundant one passes the flags of its caller on,
    the non-redundant one adds the single-copy flag to them. *)
Definition flags_passed (v : Variant) (flags : OpenFlags) : OpenFlags :=
  match v with
  | Redundant => flags
  | NonRedundant => mkOpenFlags (bestEffort flags) true
  end.

Definition spec_default_basedir (v : Variant) : string :=
  match v with Redundant => "/boot/uboot/" | NonRedundant => "/boot/uboot-nr/" end.

Definition spec_direct_basedir (v : Variant) : string :=
  match v with Redundant => "/uboot/ubuntu/" | NonRedundant => "/uboot-nr/ubuntu/" end.

(** The three cases of the option-processing policy, in the words of the
    specification. *)
Inductive spec_case : Type := RecoveryOrNoSlashBoot | RunModeOnly | Defaults.

Definition spec_case_of (blOpts : option Options) : spec_case :=
  match blOpts with
  | None => Defaults
  | Some (mkOptions RoleRecovery _) => RecoveryOrNoSlashBoot
  | Some (mkOptions _ true) => RecoveryOrNoSlashBoot
  | Some (mkOptions RoleRunMode false) => RunModeOnly
  | Some (mkOptions RoleNone false) => Defaults
  end.

Definition spec_basedir (v : Variant) (c : spec_case) : string :=
  match c with
  | RecoveryOrNoSlashBoot => spec_direct_basedir v
  | RunModeOnly | Defaults => spec_default_basedir v
  end.

Definition spec_filename (c : spec_case) : string :=
  match c with
  | RecoveryOrNoSlashBoot | RunModeOnly => "boot.sel"
  | Defaults => "uboot.env"
  end.

(** The resolved paths, relative to the root directory. *)
Definition spec_path (v : Variant) (c : spec_case) : string :=
  match v, c with
  | Redundant, Defaults => "/boot/uboot/uboot.env"
  | Redundant, RecoveryOrNoSlashBoot => "/uboot/ubuntu/boot.sel"
  | Redundant, RunModeOnly => "/boot/uboot/boot.sel"
  | NonRedundant, Defaults => "/boot/uboot-nr/uboot.env"
  | NonRedundant, RecoveryOrNoSlashBoot => "/uboot-nr/ubuntu/boot.sel"
  | NonRedundant, RunModeOnly => "/boot/uboot-nr/boot.sel"
  end.

(** ** A disk to run on *)

(** Modelled from the spec: the collaborators of uboot.go (the
    environment store of package ubootenv, the generic installer, the
    asset helpers, [osutil.FileExists]) and the file system, as far as
    their contract goes: a store that was saved is opened again with the
    variables it was saved with, the generic installer copies the gadget
    file to the system file, a file exists when it is on the disk. A disk
    also says which calls fail on it. *)
Inductive file : Type :=
| Regular (content : string)
| Store (size : Z) (vars : gmap string string).

Definition file_size (f : file) : Z :=
  match f with
  | Regular content => Z.of_nat (String.length content)
  | Store size _ => size
  end.

Record Disk : Type := mkDisk {
  files : gmap string file;
  faulty : call → bool
}.

Definition EIO : error := "input/output error".
Definition ENOENT : error := "no such file or directory".

Definition Disk_answer (d : Disk) (c : call) : resp c * Disk :=
  match c as c return resp c * Disk with
  | os_Stat name =>
      (if faulty d (os_Stat name) then Err EIO
       else match files d !! name with
            | Some f => Ok (mkFileInfo (file_size f))
            | None => Err ENOENT
            end, d)
  | os_MkdirAll path perm =>
      (if faulty d (os_MkdirAll path perm) then Some EIO else None, d)
  | ubootenv_Create fname size =>
      (if faulty d (ubootenv_Create fname size) then Err EIO
       else Ok (mkEnv fname size NoFlags ∅), d)
  | ubootenv_CreateWithFlags fname size flags =>
      (if faulty d (ubootenv_CreateWithFlags fname size flags) then Err EIO
       else Ok (mkEnv fname size flags ∅), d)
  | ubootenv_OpenWithFlags fname flags =>
      (if faulty d (ubootenv_OpenWithFlags fname flags) then Err EIO
       else match files d !! fname with
            | Some (Store size vars) => Ok (mkEnv fname size flags vars)
            | Some (Regular _) => Err "cannot open: not an environment"
            | None => Err ENOENT
            end, d)
  | Env_Save env =>
      if faulty d (Env_Save env) then (Some EIO, d)
      else (None, mkDisk (<[Env_fname env := Store (Env_size env) (Env_data env)]> (files d))
                         (faulty d))
  | genericInstallBootConfig gadgetFile systemFile =>
      if faulty d (genericInstallBootConfig gadgetFile systemFile) then (Some EIO, d)
      else match files d !! gadgetFile with
           | Some f => (None, mkDisk (<[systemFile := f]> (files d)) (faulty d))
           | None => (Some ENOENT, d)
           end
  | osutil_FileExists path =>
      (bool_decide (is_Some (files d !! path)), d)
  | extractKernelAssetsToBootDir dstDir snapf assets =>
      (if faulty d (extractKernelAssetsToBootDir dstDir snapf assets) then Some EIO
       else None, d)
  | removeKernelAssetsFromBootDir bootDir s =>
      (if faulty d (removeKernelAssetsFromBootDir bootDir s) then Some EIO
       else None, d)
  end.

Definition on_disk : handler Disk := λ c d, Disk_answer d c.

(** A disk on which nothing fails. *)
Definition sound : call → bool := λ _, false.

(** A disk on which saving a store fails and nothing else. *)
Definition save_fails : call → bool := is_Save.


(** ** Disks and options of the examples *)

Definition run_mode : option Options := Some (mkOptions RoleRunMode false).
Definition recovery : option Options := Some (mkOptions RoleRecovery false).
Definition no_slash_boot : option Options := Some (mkOptions RoleNone true).

(** A gadget whose uboot.conf is empty, on a disk with the given faults. *)
Definition empty_gadget (faults : call → bool) : Disk :=
  mkDisk {[ "/gadget/uboot.conf" := Regular "" ]} faults.

(** A gadget whose uboot.conf has content. *)
Definition full_gadget : Disk :=
  mkDisk {[ "/gadget/uboot.conf" := Regular "bootcmd=run snappy_boot" ]} sound.

(** The store that [ubootenv.Create] gives for the run-mode file under
    the root directory [/r]. *)
Definition fresh_store : Env := mkEnv "/r/boot/uboot/boot.sel" 4096 NoFlags ∅.

(** A disk with a store of the run-mode file under [/r] that holds the
    given variables. *)
Definition with_store (vars : gmap string string) : Disk :=
  mkDisk {[ "/r/boot/uboot/boot.sel" := Store 4096 vars ]} sound.

Definition kernel_snap : PlaceInfo := mkPlaceInfo "pi-kernel_42.snap".
Definition kernel_file : Container := container "/var/lib/snapd/snaps/pi-kernel_42.snap".

(** ** Path elements of a facade from the constructors *)

(** The elements that the base directory and the file name of a case add
    below the root directory, the file name first. *)
Definition path_elems (v : Variant) (c : spec_case) : list string :=
  match v, c with
  | Redundant, Defaults => ["uboot.env"; "uboot"; "boot"]
  | Redundant, RecoveryOrNoSlashBoot => ["boot.sel"; "ubuntu"; "uboot"]
  | Redundant, RunModeOnly => ["boot.sel"; "uboot"; "boot"]
  | NonRedundant, Defaults => ["uboot.env"; "uboot-nr"; "boot"]
  | NonRedundant, RecoveryOrNoSlashBoot => ["boot.sel"; "ubuntu"; "uboot-nr"]
  | NonRedundant, RunModeOnly => ["boot.sel"; "uboot-nr"; "boot"]
  end.

(** A gadget with a file for each variant, and a disk on which every
    call that can fail does. *)
Definition failing : call → bool := λ _, true.

Definition broken_disk : Disk := mkDisk ∅ failing.

Definition two_vars : list (string * string) := [("mode", "try"); ("kernel", "k2.snap")].

(** A gadget for the non-redundant variant whose uboot-nr.conf is empty. *)
Definition empty_gadget_nr : Disk :=
  mkDisk {[ "/gadget/uboot-nr.conf" := Regular "" ]} sound.
(** * Properties *)

(** ** path/filepath *)

(** Cases of the table of [Clean] in Go's path tests, and of [Join]
    and [Dir]. *)
Example Clean_table :
  map filepath.Clean
      [ ""; "abc"; "abc/def"; "a/b/c"; "."; ".."; "../.."; "../../abc"; "/abc";
        "/"; "abc/"; "abc/def/"; "a/b/c/"; "./"; "../"; "../../"; "/abc/";
        "abc//def//ghi"; "//abc"; "///abc"; "//abc//"; "abc//";
        "abc/./def"; "/./abc/def"; "abc/.";
        "abc/def/ghi/../jkl"; "abc/def/../ghi/../jkl"; "abc/def/.."; "abc/def/../..";
        "/abc/def/../.."; "abc/def/../../.."; "/abc/def/../../..";
        "abc/def/../../../ghi/jkl/../../../mno"; "/../abc";
        "abc/./../def"; "abc//./../def"; "abc/../../././../def" ]
  = [ "."; "abc"; "abc/def"; "a/b/c"; "."; ".."; "../.."; "../../abc"; "/abc";
      "/"; "abc"; "abc/def"; "a/b/c"; "."; ".."; "../.."; "/abc";
      "abc/def/ghi"; "/abc"; "/abc"; "/abc"; "abc";
      "abc/def"; "/abc/def"; "abc";
      "abc/def/jkl"; "abc/jkl"; "abc"; ".";
      "/"; ".."; "/";
      "../../mno"; "/abc";
      "def"; "def"; "../../def" ].
Proof. vm_compute. reflexivity. Qed.

Example Join_table :
  map filepath.Join
      [ []; [""]; ["a"]; ["a"; "b"]; ["a"; ""]; [""; "b"]; ["/"; "a"];
        ["/"; ""]; ["a/"; "b"]; ["a/"; ""]; [""; ""]; ["/r"; "/boot/uboot/"] ]
  = [ ""; ""; "a"; "a/b"; "a"; "b"; "/a";
      "/"; "a/b"; "a"; ""; "/r/boot/uboot" ].
Proof. vm_compute. reflexivity. Qed.

Example Dir_table :
  map filepath.Dir
      [ ""; "."; "/."; "/"; "/foo"; "x/"; "abc"; "abc/def"; "a/b/.x";
        "a/b/c."; "a/b/c.x"; "/r/boot/uboot/boot.sel" ]
  = [ "."; "."; "/"; "/"; "/"; "x"; "."; "abc"; "a/b";
      "a/b"; "a/b"; "/r/boot/uboot" ].
Proof. vm_compute. reflexivity. Qed.

Section filepath_facts.
Import filepath.

Lemma append_nil (b : string) : "" +:+ b = b.
Proof. reflexivity. Qed.

Lemma append_cons (x : ascii) (a b : string) : String x a +:+ b = String x (a +:+ b).
Proof. reflexivity. Qed.

Lemma append_assoc (a b c : string) : (a +:+ b) +:+ c = a +:+ (b +:+ c).
Proof.
  induction a as [|x a IH]; [reflexivity|].
  rewrite !append_cons. now rewrite IH.
Qed.

Lemma split_not_nil s : split s ≠ [].
Proof.
  destruct s as [|c s]; simpl; [discriminate|].
  destruct (IsPathSeparator c); [discriminate|].
  destruct (split s); discriminate.
Qed.

Lemma split_app_sep a b : split (a +:+ String "/" b) = split a ++ split b.
Proof.
  induction a as [|c a IH]; [reflexivity|].
  rewrite append_cons. simpl.
  destruct (IsPathSeparator c); [now rewrite IH|].
  rewrite IH. destruct (split a) eqn:E; [now apply split_not_nil in E|].
  reflexivity.
Qed.

Lemma split_no_sep s : Forall (λ e, no_sep e = true) (split s).
Proof.
  induction s as [|c s IH]; simpl; [repeat constructor|].
  destruct (IsPathSeparator c) eqn:Ec; [constructor; [reflexivity | exact IH]|].
  destruct (split s) as [|e es]; [repeat constructor; simpl; now rewrite Ec|].
  inversion IH; subst. constructor; [simpl; now rewrite Ec | assumption].
Qed.

Lemma split_of_no_sep e : no_sep e = true → split e = [e].
Proof.
  induction e as [|c e IH]; simpl; [reflexivity|].
  intros [Hc He]%andb_true_iff. apply negb_true_iff in Hc. rewrite Hc.
  now rewrite (IH He).
Qed.

Lemma split_join_sep l :
  l ≠ [] → Forall (λ e, no_sep e = true) l → split (join_sep l) = l.
Proof.
  induction l as [|e l IH]; [congruence|]. intros _ H.
  inversion H as [|? ? He Hl]; subst.
  destruct l as [|e' l]; [now apply split_of_no_sep|].
  change (join_sep (e :: e' :: l)) with (e +:+ String "/" (join_sep (e' :: l))).
  rewrite split_app_sep, (split_of_no_sep e He), IH; [reflexivity | discriminate | assumption].
Qed.

Lemma clean_step_real rooted out e : real e → clean_step rooted out e = e :: out.
Proof.
  intros (H1 & H2 & H3 & _). unfold clean_step.
  apply eqb_neq in H1, H2, H3. now rewrite H1, H2, H3.
Qed.

Lemma clean_step_cleaned rooted out e :
  no_sep e = true → cleaned rooted out → cleaned rooted (clean_step rooted out e).
Proof.
  intros He (names & k & -> & Hn & Hk). unfold clean_step.
  destruct (String.eqb_spec e ""); [now exists names, k|].
  destruct (String.eqb_spec e "."); [now exists names, k|].
  destruct (String.eqb_spec e "..") as [->|].
  - destruct names as [|x names]; simpl.
    + destruct k as [|k]; simpl.
      * destruct rooted; [now exists [], 0%nat|].
        exists [], 1%nat. repeat split; [constructor | discriminate].
      * destruct rooted; [now specialize (Hk eq_refl)|].
        exists [], (S (S k)). repeat split; [constructor | discriminate].
    + inversion Hn as [|? ? (_ & _ & Hx & _) Hn']; subst.
      apply eqb_neq in Hx. rewrite Hx. now exists names, k.
  - exists (e :: names), k. repeat split; [|assumption].
    constructor; [now repeat split | assumption].
Qed.

Lemma fold_clean_step_cleaned rooted l out :
  Forall (λ e, no_sep e = true) l → cleaned rooted out →
  cleaned rooted (fold_left (clean_step rooted) l out).
Proof.
  revert out. induction l as [|e l IH]; intros out Hl Ho; [exact Ho|].
  inversion Hl; subst. simpl. apply IH; [assumption|].
  now apply clean_step_cleaned.
Qed.

Lemma cleaned_nil rooted : cleaned rooted [].
Proof. exists [], 0%nat. repeat split. constructor. Qed.

Lemma clean_elems_cleaned rooted path : cleaned rooted (clean_elems rooted path).
Proof.
  apply fold_clean_step_cleaned; [apply split_no_sep | apply cleaned_nil].
Qed.

Lemma fold_clean_step_dotdots k j :
  fold_left (clean_step false) (replicate k "..") (replicate j "..")
  = replicate (k + j) "..".
Proof.
  revert j. induction k as [|k IH]; intros j; [reflexivity|].
  assert (clean_step false (replicate j "..") ".." = replicate (S j) "..") as E
    by (destruct j; reflexivity).
  change (fold_left (clean_step false) (replicate (S k) "..") (replicate j ".."))
    with (fold_left (clean_step false) (replicate k "..")
            (clean_step false (replicate j "..") "..")).
  rewrite E, IH. f_equal. lia.
Qed.

Lemma fold_clean_step_reals rooted l out :
  Forall real l → fold_left (clean_step rooted) l out = reverse l ++ out.
Proof.
  revert out. induction l as [|e l IH]; intros out H; [reflexivity|].
  inversion H; subst. simpl. rewrite clean_step_real by assumption.
  rewrite IH by assumption. now rewrite reverse_cons, <- app_assoc.
Qed.

(** Reading the output of [Clean] again gives the same elements. *)
Lemma fold_clean_step_replay rooted out :
  cleaned rooted out → fold_left (clean_step rooted) (reverse out) [] = out.
Proof.
  intros (names & k & -> & Hn & Hk).
  rewrite reverse_app, fold_left_app.
  assert (fold_left (clean_step rooted) (reverse (replicate k "..")) [] = replicate k "..") as ->.
  { destruct rooted.
    - now rewrite (Hk eq_refl).
    - rewrite reverse_replicate. change [] with (replicate 0 "..") at 1.
      rewrite fold_clean_step_dotdots. f_equal. lia. }
  rewrite fold_clean_step_reals, reverse_involutive; [reflexivity|].
  now apply Forall_reverse.
Qed.
End filepath_facts.

Section Clean_facts.
Import filepath.

Lemma cleaned_elements rooted out :
  cleaned rooted out → Forall (λ e, e ≠ "" ∧ no_sep e = true) out.
Proof.
  intros (names & k & -> & Hn & _). apply Forall_app. split.
  - eapply Forall_impl; [exact Hn|]. now intros e (? & _ & _ & ?).
  - apply Forall_replicate. now split.
Qed.

Lemma join_sep_head e l :
  e ≠ "" → no_sep e = true →
  join_sep (e :: l) ≠ "" ∧ is_rooted (join_sep (e :: l)) = false.
Proof.
  intros He Hs. destruct e as [|c e]; [congruence|].
  simpl in Hs. apply andb_true_iff in Hs as [Hc _]. apply negb_true_iff in Hc.
  destruct l as [|e' l].
  - simpl. now split.
  - change (join_sep (String c e :: e' :: l))
      with (String c e +:+ "/" +:+ join_sep (e' :: l)).
    rewrite append_cons. simpl. now split.
Qed.

(** The rendered output of [Clean] is not empty, is rooted when the input
    was, and reads back as the elements it was rendered from. *)
Lemma render_reads_back rooted out :
  cleaned rooted out →
  render rooted out ≠ ""
  ∧ is_rooted (render rooted out) = rooted
  ∧ fold_left (clean_step rooted) (split (render rooted out)) [] = out.
Proof.
  intros Hc.
  assert (Forall (λ e, no_sep e = true) (reverse out)) as Hs.
  { apply Forall_reverse. eapply Forall_impl; [exact (cleaned_elements _ _ Hc)|].
    now intros e [_ ?]. }
  destruct rooted; unfold render.
  - change ("/" +:+ join_sep (reverse out)) with (String "/" (join_sep (reverse out))).
    split; [discriminate|]. split; [reflexivity|]. simpl.
    destruct out as [|e out]; [reflexivity|].
    rewrite split_join_sep; [now apply fold_clean_step_replay | | exact Hs].
    rewrite reverse_cons. now destruct (reverse out).
  - destruct out as [|e out]; [now repeat split|].
    assert (reverse (e :: out) ≠ []) as Hne
      by (rewrite reverse_cons; now destruct (reverse out)).
    pose proof (cleaned_elements _ _ Hc) as He. apply Forall_reverse in He.
    destruct (reverse (e :: out)) as [|x l] eqn:E; [congruence|].
    inversion He as [|? ? [Hx1 Hx2] _]; subst.
    destruct (join_sep_head x l Hx1 Hx2) as [H1 H2].
    split; [exact H1|]. split; [exact H2|].
    rewrite split_join_sep; [|discriminate | exact Hs].
    rewrite <- E. now apply fold_clean_step_replay.
Qed.

Lemma Clean_nonempty_input path :
  path ≠ "" → Clean path = render (is_rooted path) (clean_elems (is_rooted path) path).
Proof. intros H. unfold Clean. apply eqb_neq in H. now rewrite H. Qed.

Lemma Clean_not_empty path : Clean path ≠ "".
Proof.
  destruct (String.eqb_spec path "") as [->|H]; [discriminate|].
  rewrite Clean_nonempty_input by assumption.
  apply render_reads_back, clean_elems_cleaned.
Qed.

Lemma sep_append x : "/" +:+ x = String "/" x.
Proof. reflexivity. Qed.

Lemma append_not_empty x y : x ≠ "" → x +:+ y ≠ "".
Proof. destruct x; [congruence | rewrite append_cons; discriminate]. Qed.

Lemma is_rooted_append x y : x ≠ "" → is_rooted (x +:+ y) = is_rooted x.
Proof. destruct x; [congruence | now rewrite append_cons]. Qed.

(** Cleaning [x/c] goes on from the elements of [x]. *)
Lemma Clean_app_sep x c :
  x ≠ "" →
  Clean (x +:+ String "/" c)
  = render (is_rooted x)
      (fold_left (clean_step (is_rooted x)) (split c) (clean_elems (is_rooted x) x)).
Proof.
  intros Hx.
  rewrite Clean_nonempty_input by now apply append_not_empty.
  rewrite is_rooted_append by assumption. unfold clean_elems.
  now rewrite split_app_sep, fold_left_app.
Qed.

Lemma Clean_Clean_app x c :
  x ≠ "" → Clean (Clean x +:+ String "/" c) = Clean (x +:+ String "/" c).
Proof.
  intros Hx. rewrite (Clean_app_sep x c Hx).
  rewrite (Clean_app_sep (Clean x) c (Clean_not_empty x)).
  rewrite (Clean_nonempty_input x Hx).
  destruct (render_reads_back (is_rooted x) (clean_elems (is_rooted x) x)
              (clean_elems_cleaned _ _)) as (_ & -> & H).
  unfold clean_elems at 1. now rewrite H.
Qed.

Lemma Clean_idempotent x : Clean (Clean x) = Clean x.
Proof.
  destruct (String.eqb_spec x "") as [->|Hx]; [reflexivity|].
  rewrite (Clean_nonempty_input (Clean x) (Clean_not_empty x)).
  rewrite (Clean_nonempty_input x Hx).
  destruct (render_reads_back (is_rooted x) (clean_elems (is_rooted x) x)
              (clean_elems_cleaned _ _)) as (_ & -> & H).
  unfold clean_elems at 1. now rewrite H.
Qed.

Lemma Join_cons a l : a ≠ "" → Join (a :: l) = Clean (join_sep (a :: l)).
Proof. intros H. apply eqb_neq in H. simpl. now rewrite H. Qed.

Lemma Join_two a b : a ≠ "" → Join [a; b] = Clean (a +:+ String "/" b).
Proof. intros H. now rewrite Join_cons. Qed.

(** Joining in two steps is joining in one. *)
Lemma Join_Join a b c : a ≠ "" → Join [Join [a; b]; c] = Join [a; b; c].
Proof.
  intros H. rewrite (Join_two a b H), (Join_two _ c (Clean_not_empty _)).
  rewrite Clean_Clean_app by now apply append_not_empty.
  rewrite Join_cons by assumption.
  change (join_sep [a; b; c]) with (a +:+ "/" +:+ (b +:+ String "/" c)).
  change (String "/" b) with ("/" +:+ b).
  now rewrite !append_assoc.
Qed.

Lemma Join_not_empty a l : a ≠ "" → Join (a :: l) ≠ "".
Proof. intros H. rewrite Join_cons by assumption. apply Clean_not_empty. Qed.
Lemma through_last_sep_no_sep x : no_sep x = true → through_last_sep x = "".
Proof.
  induction x as [|c x IH]; [reflexivity|]. cbn.
  intros [Hc Hx]%andb_true_iff. apply negb_true_iff in Hc.
  now rewrite Hc, (IH Hx).
Qed.

Lemma through_last_sep_app a x :
  no_sep x = true → through_last_sep (a +:+ String "/" x) = a +:+ "/".
Proof.
  intros Hx. induction a as [|c a IH].
  - rewrite append_nil. cbn. now rewrite through_last_sep_no_sep.
  - rewrite !append_cons. cbn [through_last_sep]. rewrite IH.
    destruct a; cbn; now rewrite orb_true_r.
Qed.

Lemma join_sep_snoc l x : l ≠ [] → join_sep (l ++ [x]) = join_sep l +:+ String "/" x.
Proof.
  induction l as [|e l IH]; [congruence|]. intros _.
  destruct l as [|e' l]; [reflexivity|].
  change (join_sep ((e :: e' :: l) ++ [x]))
    with (e +:+ "/" +:+ join_sep ((e' :: l) ++ [x])).
  rewrite IH by discriminate.
  change (join_sep (e :: e' :: l)) with (e +:+ "/" +:+ join_sep (e' :: l)).
  now rewrite !append_assoc.
Qed.

(** The directory of a path that was joined from a directory and a file
    name is that directory, cleaned. *)
Lemma Dir_Join d fname : d ≠ "" → real fname → Dir (Join [d; fname]) = Clean d.
Proof.
  intros Hd Hf. pose proof Hf as (_ & _ & _ & Hs).
  rewrite (Join_two d fname Hd), (Clean_app_sep d fname Hd).
  rewrite (split_of_no_sep fname Hs). cbn [fold_left].
  rewrite (clean_step_real _ _ _ Hf), (Clean_nonempty_input d Hd).
  pose proof (clean_elems_cleaned (is_rooted d) d) as Hc.
  generalize dependent (clean_elems (is_rooted d) d). intros out Hc.
  generalize (is_rooted d) out Hc. clear out Hc. intros r out Hc. unfold Dir.
  destruct out as [|e out'].
  - destruct r; cbn.
    + change ("/" +:+ fname) with ("" +:+ String "/" fname).
      rewrite through_last_sep_app by assumption. reflexivity.
    + rewrite through_last_sep_no_sep by assumption. reflexivity.
  - assert (render r (fname :: e :: out') = render r (e :: out') +:+ String "/" fname)
      as ->.
    { unfold render. rewrite (reverse_cons _ fname).
      rewrite join_sep_snoc by (rewrite reverse_cons; now destruct (reverse out')).
      destruct r; [now rewrite append_assoc | reflexivity]. }
    rewrite through_last_sep_app by assumption.
    destruct (render_reads_back r (e :: out') Hc) as (Hne & Hr & Hback).
    change (render r (e :: out') +:+ "/") with (render r (e :: out') +:+ String "/" "").
    rewrite Clean_app_sep by assumption. rewrite Hr.
    unfold clean_elems. now rewrite Hback.
Qed.

Lemma real_boot_sel : real "boot.sel".
Proof. now repeat split. Qed.

Lemma real_uboot_env : real "uboot.env".
Proof. now repeat split. Qed.
End Clean_facts.

(** ** The path state *)

Lemma ubootBase_dir_root (u : ubootBase) :
  rootdir u ≠ "" → ubootBase_dir u = Ret (filepath.Join [rootdir u; basedir u]).
Proof. intros H. unfold ubootBase_dir. apply eqb_neq in H. now rewrite H. Qed.

Lemma ubootBase_dir_no_root (u : ubootBase) :
  rootdir u = "" → ubootBase_dir u = Panic "internal error: unset rootdir".
Proof. intros H. unfold ubootBase_dir. now rewrite H. Qed.

Lemma dir_not_empty_root (u : uboot) :
  rootdir (base u) ≠ "" → dir u = Ret (filepath.Join [rootdir (base u); basedir (base u)]).
Proof. apply ubootBase_dir_root. Qed.

(** With a root directory, the environment file is the join of the
    three parts of the path state. *)
Lemma envFile_not_empty_root (u : uboot) :
  rootdir (base u) ≠ "" →
  envFile u
  = Ret (filepath.Join [rootdir (base u); basedir (base u); ubootEnvFileName (base u)]).
Proof.
  intros H. unfold envFile, ubootBase_envFile.
  rewrite ubootBase_dir_root by assumption.
  cbn [mbind Prog_mbind Prog_bind]. now rewrite Join_Join.
Qed.

Lemma envFile_empty_root (u : uboot) :
  rootdir (base u) = "" → envFile u = Panic "internal error: unset rootdir".
Proof.
  intros H. unfold envFile, ubootBase_envFile.
  now rewrite ubootBase_dir_no_root.
Qed.

(** The directory of the environment file is the directory of the
    facade, when the file name is a plain one. *)
Lemma dir_is_Dir_envFile (u : uboot) f :
  envFile u = Ret f → filepath.real (ubootEnvFileName (base u)) →
  dir u = Ret (filepath.Dir f).
Proof.
  intros Hf Hreal.
  destruct (String.eqb_spec (rootdir (base u)) "") as [He|Hne].
  - rewrite envFile_empty_root in Hf by assumption. discriminate.
  - rewrite envFile_not_empty_root in Hf by assumption.
    assert (f = filepath.Join [rootdir (base u); basedir (base u);
                               ubootEnvFileName (base u)]) as -> by congruence.
    rewrite dir_not_empty_root by assumption. f_equal.
    rewrite <- Join_Join by assumption.
    rewrite Dir_Join by (try assumption; now apply Join_not_empty).
    rewrite Join_cons by assumption. now rewrite Clean_idempotent.
Qed.

(** C9. [dir] panics, and does not return an error, when [rootdir] is the
    empty string. For every path state whose [rootdir] is not empty, [dir]
    returns the join of [rootdir] and [basedir], and [envFile] returns the
    join of that directory and the file name of the environment; neither
    panics. *)
Theorem dir_envFile_rootdir (u : ubootBase) :
  (rootdir u = "" → ubootBase_dir u = Panic "internal error: unset rootdir")
  ∧ (rootdir u ≠ "" →
       ubootBase_dir u = Ret (filepath.Join [rootdir u; basedir u])
       ∧ ubootBase_envFile u
         = Ret (filepath.Join [filepath.Join [rootdir u; basedir u]; ubootEnvFileName u])).
Proof.
  split.
  - apply ubootBase_dir_no_root.
  - intros H. unfold ubootBase_envFile.
    rewrite ubootBase_dir_root by assumption. split; reflexivity.
Qed.

Lemma dir_envFile_rootdir_witness :
  ubootBase_dir (mkBase "" "/boot/uboot/" "uboot.env")
    = Panic "internal error: unset rootdir"
  ∧ ubootBase_dir (mkBase "/r" "/boot/uboot/" "uboot.env") = Ret "/r/boot/uboot"
  ∧ ubootBase_envFile (mkBase "/r" "/boot/uboot/" "uboot.env")
    = Ret "/r/boot/uboot/uboot.env".
Proof.
  split.
  - apply (dir_envFile_rootdir (mkBase "" "/boot/uboot/" "uboot.env")). reflexivity.
  - apply (dir_envFile_rootdir (mkBase "/r" "/boot/uboot/" "uboot.env")). discriminate.
Defined.

(** ** Option processing *)

(** C1. For both variants and every options value, [nil] included:
    option processing sets the base directory to the direct-partition path
    of the variant and the file name to boot.sel when the role is Recovery
    or NoSlashBoot is set; sets only the file name, to boot.sel, when
    otherwise the role is RunMode; and changes nothing otherwise. A facade
    from the constructor thus has the base directory and the file name of
    the table, and its environment file is the path of the table under the
    root directory. *)
Theorem processBlOpts_table (v : Variant) (blOpts : option Options) :
  (∀ u : uboot, variant_of u = v →
     let u' := processBlOpts u blOpts in
     variant_of u' = v
     ∧ rootdir (base u') = rootdir (base u)
     ∧ match spec_case_of blOpts with
       | RecoveryOrNoSlashBoot =>
           basedir (base u') = spec_direct_basedir v
           ∧ ubootEnvFileName (base u') = "boot.sel"
       | RunModeOnly =>
           basedir (base u') = basedir (base u)
           ∧ ubootEnvFileName (base u') = "boot.sel"
       | Defaults => u' = u
       end)
  ∧ (∀ root : string,
       let u := new v root blOpts in
       variant_of u = v
       ∧ rootdir (base u) = root
       ∧ basedir (base u) = spec_basedir v (spec_case_of blOpts)
       ∧ ubootEnvFileName (base u) = spec_filename (spec_case_of blOpts)
       ∧ (root ≠ "" →
            envFile u = Ret (filepath.Join [root; spec_path v (spec_case_of blOpts)]))).
Proof.
  split.
  - intros [b|b] <-; destruct blOpts as [[[] []]|]; cbn; repeat split; now destruct b.
  - intros root u.
    assert (variant_of u = v ∧ rootdir (base u) = root
            ∧ basedir (base u) = spec_basedir v (spec_case_of blOpts)
            ∧ ubootEnvFileName (base u) = spec_filename (spec_case_of blOpts))
      as (Hv & Hr & Hb & Hf)
      by (subst u; destruct v, blOpts as [[[] []]|]; repeat split).
    repeat split; try assumption. intros Hroot.
    rewrite envFile_not_empty_root by now rewrite Hr.
    rewrite Hr, Hb, Hf. f_equal.
    rewrite !Join_cons by assumption.
    destruct v, (spec_case_of blOpts); cbn [spec_basedir spec_filename spec_path
      spec_default_basedir spec_direct_basedir filepath.join_sep];
      rewrite !sep_append, !(Clean_app_sep root) by assumption; reflexivity.
Qed.

Lemma processBlOpts_table_witness :
  envFile (new Redundant "/r" (Some (mkOptions RoleRunMode false)))
  = Ret "/r/boot/uboot/boot.sel".
Proof.
  apply (processBlOpts_table Redundant (Some (mkOptions RoleRunMode false))).
  discriminate.
Defined.

(** The six resolved paths under the root directory [/r]. *)
Example resolved_paths :
  map (λ '(v, o), envFile (new v "/r" o))
      [ (Redundant, None);
        (Redundant, Some (mkOptions RoleRecovery false));
        (Redundant, Some (mkOptions RoleNone true));
        (Redundant, Some (mkOptions RoleRunMode false));
        (NonRedundant, Some (mkOptions RoleNone false));
        (NonRedundant, Some (mkOptions RoleRunMode true));
        (NonRedundant, Some (mkOptions RoleRunMode false)) ]
  = [ Ret "/r/boot/uboot/uboot.env";
      Ret "/r/uboot/ubuntu/boot.sel";
      Ret "/r/uboot/ubuntu/boot.sel";
      Ret "/r/boot/uboot/boot.sel";
      Ret "/r/boot/uboot-nr/uboot.env";
      Ret "/r/uboot-nr/ubuntu/boot.sel";
      Ret "/r/boot/uboot-nr/boot.sel" ].
Proof. vm_compute. reflexivity. Qed.

(** ** Running bodies *)

(** One step of [run] through the binds of a body. *)
Ltac run_step :=
  cbn [run mbind mret Prog_mbind Prog_ret Prog_bind do_call ended calls world
       createEnv ubootRedundEnv_createEnv ubootNoRedundEnv_createEnv].

Section run_facts.
Context {W : Type} (h : handler W).

Lemma run_call_bind {A} (c : call) (k : resp c → Prog A) (w : W) :
  run h (do_call c ≫= k) w
  = mkRan (ended (run h (k (answer h c w)) (after h c w)))
          (c :: calls (run h (k (answer h c w)) (after h c w)))
          (world (run h (k (answer h c w)) (after h c w))).
Proof. reflexivity. Qed.

Lemma run_ret_bind {A B} (a : A) (k : A → Prog B) (w : W) :
  run h (Ret a ≫= k) w = run h (k a) w.
Proof. reflexivity. Qed.

Lemma run_panic_bind {A B} (msg : string) (k : A → Prog B) (w : W) :
  run h (Panic msg ≫= k) w = mkRan (Panicked msg) [] w.
Proof. reflexivity. Qed.

Lemma run_do_call (c : call) (w : W) :
  run h (do_call c) w = mkRan (Done (answer h c w)) [c] (after h c w).
Proof. reflexivity. Qed.

(** The one call that creating the store of a variant makes. *)
Lemma run_createEnv (u : uboot) (fname : string) (size : Z) (w : W) :
  let c := match variant_of u with
           | Redundant => ubootenv_Create fname size
           | NonRedundant => ubootenv_CreateWithFlags fname size OpenNoRedundEnv
           end in
  calls (run h (createEnv u fname size) w) = [c]
  ∧ world (run h (createEnv u fname size) w) = after h c w
  ∧ ∃ r, ended (run h (createEnv u fname size) w) = Done r.
Proof. destruct u; cbn; repeat split; eauto. Qed.

(** The one call that opening the store of a variant makes. *)
Lemma openEnvWithFlags_call (u : uboot) (fname : string) (flags : OpenFlags) :
  openEnvWithFlags u fname flags
  = do_call (ubootenv_OpenWithFlags fname (flags_passed (variant_of u) flags)).
Proof. destruct u, flags as [[] []]; reflexivity. Qed.
End run_facts.

(** ** InstallBootConfig *)

Section InstallBootConfig_facts.
Context {W : Type} (h : handler W).

(** The gadget file is there and empty: the body up to the first call
    that can fail after [os.Stat]. *)
Lemma InstallBootConfig_empty_run (u : uboot) gadgetDir blOpts (w : W) fi f :
  let gadgetFile := filepath.Join [gadgetDir; Name u +:+ ".conf"] in
  let u' := processBlOpts u blOpts in
  answer h (os_Stat gadgetFile) w = Ok fi → Size fi = 0 → envFile u' = Ret f →
  let w1 := after h (os_Stat gadgetFile) w in
  let mkdir := os_MkdirAll (filepath.Dir f) 493 in
  let w2 := after h mkdir w1 in
  let c := run h (createEnv u' f 4096) w2 in
  run h (InstallBootConfig u gadgetDir blOpts) w
  = match answer h mkdir w1 with
    | Some err => mkRan (Done (u', Some err)) [os_Stat gadgetFile; mkdir] w2
    | None =>
        match ended c with
        | Done (Err err) =>
            mkRan (Done (u', Some err)) ([os_Stat gadgetFile; mkdir] ++ calls c) (world c)
        | Done (Ok env) =>
            mkRan (Done (u', None))
                  ([os_Stat gadgetFile; mkdir] ++ calls c ++ [Env_Save env])
                  (after h (Env_Save env) (world c))
        | Panicked msg =>
            mkRan (Panicked msg) ([os_Stat gadgetFile; mkdir] ++ calls c) (world c)
        end
    end.
Proof.
  intros gadgetFile u' Hst Hsz Hf w1 mkdir w2 c.
  unfold InstallBootConfig. cbv zeta. fold gadgetFile u'.
  run_step. rewrite Hst, Hsz. cbn [Z.eqb]. rewrite Hf. run_step.
  fold mkdir w1. destruct (answer h mkdir w1) as [err|]; [reflexivity|].
  fold w2. subst c.
  destruct u' as [b|b]; run_step.
  - destruct (answer h (ubootenv_Create f 4096) w2) as [env|err]; [|reflexivity].
    run_step. now destruct (answer h (Env_Save env) _).
  - destruct (answer h (ubootenv_CreateWithFlags f 4096 OpenNoRedundEnv) w2)
      as [env|err]; [|reflexivity].
    run_step. now destruct (answer h (Env_Save env) _).
Qed.

(** C3. When the gadget file [<gadgetDir>/<Name()>.conf] is there with
    length zero, [InstallBootConfig] applies [processBlOpts] to the options
    again, makes the directory of the environment file, creates a store of
    4096 bytes at the environment file through the variant's [createEnv]
    and saves that store; the directory made is the
    directory of the facade when the file name is a plain one, as it is
    after option processing; the gadget file is named in no call but
    [os.Stat], and the generic installer is never called. When making the
    directory or creating the store fails, the calls stop there. *)
Theorem InstallBootConfig_empty_gadget_file (u : uboot) gadgetDir blOpts (w : W) fi f :
  let gadgetFile := filepath.Join [gadgetDir; Name u +:+ ".conf"] in
  let u' := processBlOpts u blOpts in
  answer h (os_Stat gadgetFile) w = Ok fi → Size fi = 0 → envFile u' = Ret f →
  let stat := os_Stat gadgetFile in
  let mkdir := os_MkdirAll (filepath.Dir f) 493 in
  let create := match variant_of u with
                | Redundant => ubootenv_Create f 4096
                | NonRedundant => ubootenv_CreateWithFlags f 4096 OpenNoRedundEnv
                end in
  let w2 := after h mkdir (after h stat w) in
  let r := run h (InstallBootConfig u gadgetDir blOpts) w in
  (∃ err, ended r = Done (u', err))
  ∧ (filepath.real (ubootEnvFileName (base u')) → dir u' = Ret (filepath.Dir f))
  ∧ (∀ gf sf, genericInstallBootConfig gf sf ∉ calls r)
  ∧ match answer h mkdir (after h stat w) with
    | Some _ => calls r = [stat; mkdir]
    | None =>
        match ended (run h (createEnv u' f 4096) w2) with
        | Done (Ok env) => calls r = [stat; mkdir; create; Env_Save env]
        | _ => calls r = [stat; mkdir; create]
        end
    end.
Proof.
  intros gadgetFile u' Hst Hsz Hf stat mkdir create w2 r. subst r.
  assert (filepath.real (ubootEnvFileName (base u')) → dir u' = Ret (filepath.Dir f))
    as Hdir by now apply dir_is_Dir_envFile.
  rewrite (InstallBootConfig_empty_run u gadgetDir blOpts w fi f Hst Hsz Hf).
  fold gadgetFile u' stat mkdir w2.
  destruct (run_createEnv h u' f 4096 w2) as (Hc & _ & res & Hres).
  assert (variant_of u' = variant_of u) as Hv by (subst u'; now destruct u).
  cbv zeta in Hc. rewrite Hv in Hc. fold create in Hc.
  destruct (answer h mkdir (after h stat w)) as [err|].
  - split; [eauto|]. split; [exact Hdir|]. split; [|reflexivity].
    intros gf sf. cbn [calls]. subst stat mkdir.
    rewrite !elem_of_cons, elem_of_nil. intros [|[|]]; done.
  - rewrite Hres, Hc. destruct res as [env|err]; cbn [ended calls app].
    + split; [eauto|]. split; [exact Hdir|]. split; [|reflexivity].
      intros gf sf. subst stat mkdir create.
      rewrite !elem_of_cons, elem_of_nil. destruct (variant_of u); intros [|[|[|[|]]]]; done.
    + split; [eauto|]. split; [exact Hdir|]. split; [|reflexivity].
      intros gf sf. subst stat mkdir create.
      rewrite !elem_of_cons, elem_of_nil. destruct (variant_of u); intros [|[|[|]]]; done.
Qed.

(** C5. When the gadget file is not empty and the role of the options is
    Recovery, [InstallBootConfig] returns the error that says so; the only
    call it has made is [os.Stat] on the gadget file, so nothing was
    created, written or installed. *)
Theorem InstallBootConfig_recovery_not_supported (u : uboot) gadgetDir (o : Options)
    (w : W) fi :
  let gadgetFile := filepath.Join [gadgetDir; Name u +:+ ".conf"] in
  answer h (os_Stat gadgetFile) w = Ok fi → Size fi ≠ 0 → blRole o = RoleRecovery →
  let r := run h (InstallBootConfig u gadgetDir (Some o)) w in
  ended r = Done (setDefaults u, Some "non-empty uboot.env not supported on UC20+ yet")
  ∧ calls r = [os_Stat gadgetFile]
  ∧ world r = after h (os_Stat gadgetFile) w
  ∧ ∀ gf sf, genericInstallBootConfig gf sf ∉ calls r.
Proof.
  intros gadgetFile Hst Hsz Hrole r. subst r.
  unfold InstallBootConfig. cbv zeta. fold gadgetFile.
  run_step. rewrite Hst. apply Z.eqb_neq in Hsz. rewrite Hsz, Hrole.
  cbn [Role_eqb]. run_step. repeat split.
  intros gf sf. rewrite elem_of_cons, elem_of_nil. intros [|]; done.
Qed.

(** C10. When the gadget file is not empty and the role of the options
    is not Recovery, [InstallBootConfig] leaves the facade with the default
    base directory and file name of its variant, whatever the options made
    of them before, and passes the gadget file to the generic installer
    with the default environment path under the root directory as its
    target. *)
Theorem InstallBootConfig_nonempty_installs_at_defaults (u : uboot) gadgetDir blOpts
    (w : W) fi :
  let gadgetFile := filepath.Join [gadgetDir; Name u +:+ ".conf"] in
  answer h (os_Stat gadgetFile) w = Ok fi → Size fi ≠ 0 →
  (∀ o, blOpts = Some o → blRole o ≠ RoleRecovery) →
  rootdir (base u) ≠ "" →
  let v := variant_of u in
  let systemFile := filepath.Join [rootdir (base u); spec_path v Defaults] in
  let install := genericInstallBootConfig gadgetFile systemFile in
  let r := run h (InstallBootConfig u gadgetDir blOpts) w in
  ∃ u', ended r = Done (u', answer h install (after h (os_Stat gadgetFile) w))
        ∧ u' = setDefaults u
        ∧ variant_of u' = v
        ∧ rootdir (base u') = rootdir (base u)
        ∧ basedir (base u') = spec_default_basedir v
        ∧ ubootEnvFileName (base u') = "uboot.env"
        ∧ envFile u' = Ret systemFile
        ∧ calls r = [os_Stat gadgetFile; install].
Proof.
  intros gadgetFile Hst Hsz Hrole Hroot v systemFile install r. subst r.
  assert (envFile (setDefaults u) = Ret systemFile) as Hf.
  { rewrite envFile_not_empty_root by now destruct u.
    subst systemFile v. f_equal. destruct u as [b|b]; cbn [setDefaults base variant_of
      ubootRedundEnv_setDefaults ubootNoRedundEnv_setDefaults rootdir basedir
      ubootEnvFileName spec_path];
      rewrite !Join_cons by assumption; cbn [filepath.join_sep];
      rewrite !sep_append, !(Clean_app_sep (rootdir b)) by assumption; reflexivity. }
  exists (setDefaults u).
  unfold InstallBootConfig. cbv zeta. fold gadgetFile.
  run_step. rewrite Hst. apply Z.eqb_neq in Hsz. rewrite Hsz.
  assert (match blOpts with
          | Some o => Role_eqb (blRole o) RoleRecovery
          | None => false
          end = false) as ->.
  { destruct blOpts as [o|]; [|reflexivity].
    specialize (Hrole o eq_refl). now destruct (blRole o). }
  rewrite Hf. run_step. fold install.
  repeat split; try assumption; now destruct u.
Qed.
End InstallBootConfig_facts.

Lemma InstallBootConfig_empty_gadget_file_witness :
  answer on_disk (os_Stat "/gadget/uboot.conf") (empty_gadget sound) = Ok (mkFileInfo 0)
  ∧ calls (run on_disk (InstallBootConfig (newUboot "/r" run_mode) "/gadget" run_mode)
             (empty_gadget sound))
    = [ os_Stat "/gadget/uboot.conf";
        os_MkdirAll "/r/boot/uboot" 493;
        ubootenv_Create "/r/boot/uboot/boot.sel" 4096;
        Env_Save fresh_store ].
Proof.
  assert (answer on_disk (os_Stat "/gadget/uboot.conf") (empty_gadget sound)
          = Ok (mkFileInfo 0)) as Hst by (vm_compute; reflexivity).
  split; [exact Hst|].
  pose proof (InstallBootConfig_empty_gadget_file on_disk (newUboot "/r" run_mode)
                "/gadget" run_mode (empty_gadget sound) (mkFileInfo 0)
                "/r/boot/uboot/boot.sel" Hst eq_refl eq_refl) as (_ & _ & _ & H).
  exact H.
Defined.

Lemma InstallBootConfig_recovery_not_supported_witness :
  answer on_disk (os_Stat "/gadget/uboot.conf") full_gadget = Ok (mkFileInfo 23)
  ∧ calls (run on_disk (InstallBootConfig (newUboot "/r" recovery) "/gadget" recovery)
             full_gadget)
    = [os_Stat "/gadget/uboot.conf"]
  ∧ world (run on_disk (InstallBootConfig (newUboot "/r" recovery) "/gadget" recovery)
             full_gadget)
    = full_gadget.
Proof.
  assert (answer on_disk (os_Stat "/gadget/uboot.conf") full_gadget
          = Ok (mkFileInfo 23)) as Hst by (vm_compute; reflexivity).
  split; [exact Hst|].
  pose proof (InstallBootConfig_recovery_not_supported on_disk (newUboot "/r" recovery)
                "/gadget" (mkOptions RoleRecovery false) full_gadget (mkFileInfo 23)
                Hst ltac:(discriminate) eq_refl) as (_ & H1 & H2 & _).
  split; [exact H1 | exact H2].
Defined.

Lemma InstallBootConfig_nonempty_installs_at_defaults_witness :
  answer on_disk (os_Stat "/gadget/uboot.conf") full_gadget = Ok (mkFileInfo 23)
  ∧ basedir (base (newUboot "/r" no_slash_boot)) = "/uboot/ubuntu/"
  ∧ calls (run on_disk (InstallBootConfig (newUboot "/r" no_slash_boot) "/gadget"
                          no_slash_boot) full_gadget)
    = [ os_Stat "/gadget/uboot.conf";
        genericInstallBootConfig "/gadget/uboot.conf" "/r/boot/uboot/uboot.env" ].
Proof.
  assert (answer on_disk (os_Stat "/gadget/uboot.conf") full_gadget
          = Ok (mkFileInfo 23)) as Hst by (vm_compute; reflexivity).
  split; [exact Hst|]. split; [reflexivity|].
  destruct (InstallBootConfig_nonempty_installs_at_defaults on_disk
              (newUboot "/r" no_slash_boot) "/gadget" no_slash_boot full_gadget
              (mkFileInfo 23) Hst ltac:(discriminate)
              ltac:(intros o [= <-]; discriminate) ltac:(discriminate))
    as (u' & _ & _ & _ & _ & _ & _ & _ & H).
  exact H.
Defined.

(** What [InstallBootConfig] returns on each failure after [os.Stat]
    found the gadget file empty: the error of [os.MkdirAll] and the error
    of the variant's [createEnv] are returned; the error of [Save] is not,
    [nil] is returned in its place. *)
Lemma InstallBootConfig_empty_errors {W} (h : handler W) (u : uboot) gadgetDir blOpts
    (w : W) fi f :
  let gadgetFile := filepath.Join [gadgetDir; Name u +:+ ".conf"] in
  let u' := processBlOpts u blOpts in
  answer h (os_Stat gadgetFile) w = Ok fi → Size fi = 0 → envFile u' = Ret f →
  let w1 := after h (os_Stat gadgetFile) w in
  let mkdir := os_MkdirAll (filepath.Dir f) 493 in
  let c := run h (createEnv u' f 4096) (after h mkdir w1) in
  let r := run h (InstallBootConfig u gadgetDir blOpts) w in
  (∀ err, answer h mkdir w1 = Some err → ended r = Done (u', Some err))
  ∧ (∀ err, answer h mkdir w1 = None → ended c = Done (Err err) →
       ended r = Done (u', Some err))
  ∧ (∀ env err, answer h mkdir w1 = None → ended c = Done (Ok env) →
       answer h (Env_Save env) (world c) = Some err →
       ended r = Done (u', None) ∧ last (calls r) = Some (Env_Save env)).
Proof.
  intros gadgetFile u' Hst Hsz Hf w1 mkdir c r. subst r.
  rewrite (InstallBootConfig_empty_run h u gadgetDir blOpts w fi f Hst Hsz Hf).
  fold gadgetFile u' w1 mkdir c. split; [|split].
  - now intros err ->.
  - now intros err -> ->.
  - intros env err -> -> _. split; [reflexivity|].
    cbn [calls]. now rewrite !app_assoc, last_snoc.
Qed.

(** C4, the failing input: the gadget file is empty, the directory is
    made, the store is created, and saving it fails with an i/o error.
    [InstallBootConfig] returns [nil], and no store is on the disk. *)
Theorem InstallBootConfig_save_error_dropped :
  answer on_disk (Env_Save fresh_store) (empty_gadget save_fails) = Some EIO
  ∧ run on_disk (InstallBootConfig (newUboot "/r" run_mode) "/gadget" run_mode)
        (empty_gadget save_fails)
    = mkRan (Done (newUboot "/r" run_mode, None))
            [ os_Stat "/gadget/uboot.conf";
              os_MkdirAll "/r/boot/uboot" 493;
              ubootenv_Create "/r/boot/uboot/boot.sel" 4096;
              Env_Save fresh_store ]
            (empty_gadget save_fails)
  ∧ files (empty_gadget save_fails) !! "/r/boot/uboot/boot.sel" = None.
Proof. vm_compute. repeat split. Qed.

(** ** Present *)

(** C7. [Present] asks [osutil.FileExists] about the environment file and
    returns its answer with a [nil] error: true exactly when the file is
    said to exist, and no error whatever the check met. It makes no other
    call. *)
Theorem Present_FileExists_nil_error {W} (h : handler W) (u : uboot) (w : W) f :
  envFile u = Ret f →
  let exists_ := osutil_FileExists f in
  run h (Present u) w = mkRan (Done (answer h exists_ w, None)) [exists_] (after h exists_ w).
Proof. intros Hf. unfold Present. rewrite Hf. reflexivity. Qed.

(** On a disk, a file exists when the disk has it. *)
Lemma FileExists_on_disk (d : Disk) (path : string) :
  answer on_disk (osutil_FileExists path) d = true ↔ is_Some (files d !! path).
Proof. apply bool_decide_eq_true. Qed.

Lemma Present_FileExists_nil_error_witness :
  ended (run on_disk (Present (newUboot "/r" run_mode)) (with_store ∅))
    = Done (true, None)
  ∧ ended (run on_disk (Present (newUboot "/r" run_mode)) full_gadget)
    = Done (false, None).
Proof.
  split.
  - rewrite (Present_FileExists_nil_error on_disk (newUboot "/r" run_mode)
               (with_store ∅) "/r/boot/uboot/boot.sel" eq_refl).
    vm_compute. reflexivity.
  - rewrite (Present_FileExists_nil_error on_disk (newUboot "/r" run_mode)
               full_gadget "/r/boot/uboot/boot.sel" eq_refl).
    vm_compute. reflexivity.
Defined.

(** ** Kernel assets *)

(** C8. With an empty [recoverySystemDir], [ExtractRecoveryKernelAssets]
    returns an internal error and makes no call at all. Otherwise its one
    call extracts the three assets kernel.img, initrd.img and dtbs/* into
    the directory [kernel] of the recovery system under the root
    directory, and the result of that call is returned. *)
Theorem ExtractRecoveryKernelAssets_target {W} (h : handler W) (u : uboot)
    (recoverySystemDir : string) (s : PlaceInfo) (snapf : Container) (w : W) :
  let r := run h (ExtractRecoveryKernelAssets u recoverySystemDir s snapf) w in
  (recoverySystemDir = "" →
     r = mkRan (Done (Some "internal error: recoverySystemDir unset")) [] w)
  ∧ (recoverySystemDir ≠ "" →
       let extract :=
         extractKernelAssetsToBootDir
           (filepath.Join [rootDir u; recoverySystemDir; "kernel"]) snapf
           ["kernel.img"; "initrd.img"; "dtbs/*"] in
       r = mkRan (Done (answer h extract w)) [extract] (after h extract w)).
Proof.
  intros r. subst r. unfold ExtractRecoveryKernelAssets. split.
  - intros ->. reflexivity.
  - intros H. apply eqb_neq in H. rewrite H. reflexivity.
Qed.

Lemma ExtractRecoveryKernelAssets_target_witness :
  run on_disk (ExtractRecoveryKernelAssets (newUboot "/r" recovery) ""
                 kernel_snap kernel_file) full_gadget
    = mkRan (Done (Some "internal error: recoverySystemDir unset")) [] full_gadget
  ∧ calls (run on_disk (ExtractRecoveryKernelAssets (newUboot "/r" recovery)
                          "/systems/20231004" kernel_snap kernel_file) full_gadget)
    = [ extractKernelAssetsToBootDir "/r/systems/20231004/kernel" kernel_file
          ["kernel.img"; "initrd.img"; "dtbs/*"] ].
Proof.
  split.
  - apply (ExtractRecoveryKernelAssets_target on_disk (newUboot "/r" recovery) ""
             kernel_snap kernel_file full_gadget). reflexivity.
  - destruct (ExtractRecoveryKernelAssets_target on_disk (newUboot "/r" recovery)
                "/systems/20231004" kernel_snap kernel_file full_gadget) as [_ H].
    rewrite H by discriminate. reflexivity.
Defined.

(** ** GetBootVars *)

Lemma GetBootVars_fold (env : Env) (names : list string) (out : gmap string string) :
  ∀ name,
    fold_left (λ out name, <[name := Get env name]> out) names out !! name
    = if decide (name ∈ names) then Some (Get env name) else out !! name.
Proof.
  revert out. induction names as [|n names IH]; intros out name.
  - cbn. now rewrite decide_False by apply not_elem_of_nil.
  - cbn [fold_left]. rewrite IH.
    destruct (decide (name ∈ names)) as [Hin|Hnin].
    + now rewrite decide_True by now right.
    + destruct (decide (name = n)) as [->|Hne].
      * rewrite decide_True by now left. apply lookup_insert_eq.
      * rewrite decide_False by (rewrite elem_of_cons; tauto).
        now apply lookup_insert_ne.
Qed.

(** C6. Once the store is open, [GetBootVars] returns a map, never an
    error; the keys of the map are exactly the names asked for; each name
    maps to what the store gives for it: its value when it is set and the
    empty string when it is not. *)
Theorem GetBootVars_exactly_names {W} (h : handler W) (u : uboot) (names : list string)
    (w : W) f env :
  let open := ubootenv_OpenWithFlags f (flags_passed (variant_of u) OpenBestEffort) in
  envFile u = Ret f → answer h open w = Ok env →
  let r := run h (GetBootVars u names) w in
  ∃ out : gmap string string,
    ended r = Done (Ok out)
    ∧ calls r = [open]
    ∧ dom out = list_to_set names
    ∧ (∀ name, name ∈ names → out !! name = Some (Get env name))
    ∧ (∀ name value, name ∈ names → Env_data env !! name = Some value →
         out !! name = Some value)
    ∧ (∀ name, name ∈ names → Env_data env !! name = None → out !! name = Some "").
Proof.
  intros open Hf Hopen r. subst r.
  unfold GetBootVars. cbv zeta. rewrite Hf. run_step.
  rewrite openEnvWithFlags_call. run_step.
  fold open. rewrite Hopen. run_step.
  eexists. split; [reflexivity|]. split; [reflexivity|].
  assert (∀ name, name ∈ names →
            fold_left (λ out name, <[name := Get env name]> out) names
              (∅ : gmap string string) !! name
            = Some (Get env name)) as Hin.
  { intros name Hn. rewrite GetBootVars_fold. now rewrite decide_True. }
  split; [|split; [exact Hin|split]].
  - apply set_eq. intros name. rewrite elem_of_dom, elem_of_list_to_set.
    rewrite GetBootVars_fold. destruct (decide (name ∈ names)) as [Hn|Hn].
    + split; [now intros _ | eauto].
    + rewrite lookup_empty. split; [now intros [? ?] | tauto].
  - intros name value Hn Hv. rewrite (Hin name Hn). unfold Get. now rewrite Hv.
  - intros name Hn Hv. rewrite (Hin name Hn). unfold Get. now rewrite Hv.
Qed.

Lemma GetBootVars_exactly_names_witness :
  ended (run on_disk (GetBootVars (newUboot "/r" run_mode) ["mode"; "status"])
           (with_store {[ "mode" := "try" ]}))
  = Done (Ok {[ "mode" := "try"; "status" := "" ]}).
Proof.
  destruct (GetBootVars_exactly_names on_disk (newUboot "/r" run_mode) ["mode"; "status"]
              (with_store {[ "mode" := "try" ]}) "/r/boot/uboot/boot.sel"
              (mkEnv "/r/boot/uboot/boot.sel" 4096 OpenBestEffort {[ "mode" := "try" ]})
              eq_refl ltac:(vm_compute; reflexivity))
    as (out & -> & _ & Hdom & _ & Hset & Hunset).
  do 2 f_equal. apply map_eq. intros name.
  destruct (decide (name = "mode")) as [->|Hm].
  - rewrite (Hset "mode" "try"); [reflexivity | now left | reflexivity].
  - destruct (decide (name = "status")) as [->|Hs].
    + rewrite (Hunset "status"); [reflexivity | right; now left | reflexivity].
    + rewrite lookup_insert_ne, lookup_singleton_ne by congruence.
      apply not_elem_of_dom. rewrite Hdom.
      rewrite elem_of_list_to_set, !elem_of_cons, elem_of_nil. tauto.
Defined.

(** ** SetBootVars *)

Lemma Get_Set_same env k v : Get (Set_ env k v) k = v.
Proof. unfold Get, Set_. cbn. now rewrite lookup_insert_eq. Qed.

Lemma Get_Set_other env k v k' : k ≠ k' → Get (Set_ env k v) k' = Get env k'.
Proof. intros H. unfold Get, Set_. cbn. now rewrite lookup_insert_ne. Qed.

Lemma set_all_other env kvs k : k ∉ kvs.*1 → Get (set_all env kvs) k = Get env k.
Proof.
  revert env. induction kvs as [|[k' v'] kvs IH]; intros env Hk; [reflexivity|].
  rewrite fmap_cons, not_elem_of_cons in Hk. destruct Hk as [Hne Hk].
  unfold set_all in *. cbn. rewrite IH by assumption.
  now apply Get_Set_other.
Qed.

Lemma set_all_same env kvs k v :
  NoDup kvs.*1 → (k, v) ∈ kvs → Get (set_all env kvs) k = v.
Proof.
  revert env. induction kvs as [|[k' v'] kvs IH]; intros env Hnd Hin.
  - now apply elem_of_nil in Hin.
  - rewrite fmap_cons in Hnd. apply NoDup_cons in Hnd as [Hk' Hnd].
    apply elem_of_cons in Hin as [[= -> ->]|Hin].
    + change (set_all env ((k', v') :: kvs)) with (set_all (Set_ env k' v') kvs).
      rewrite set_all_other by assumption. apply Get_Set_same.
    + change (set_all env ((k', v') :: kvs)) with (set_all (Set_ env k' v') kvs).
      now apply IH.
Qed.

Lemma differing_after_Set env k v kvs :
  k ∉ kvs.*1 → differing (Set_ env k v) kvs = differing env kvs.
Proof.
  unfold differing. induction kvs as [|[k' v'] kvs IH]; intros Hk; [reflexivity|].
  rewrite fmap_cons, not_elem_of_cons in Hk. destruct Hk as [Hne Hk].
  rewrite !filter_cons. cbn [fst snd]. rewrite Get_Set_other by assumption.
  now rewrite IH.
Qed.

(** The loop sets the entries that differ from the store, in the order
    of the iteration, and is dirty when there was one. *)
Lemma SetBootVars_range_differing env dirty kvs :
  NoDup kvs.*1 →
  SetBootVars_range env dirty kvs
  = (set_all env (differing env kvs), dirty || bool_decide (differing env kvs ≠ [])).
Proof.
  revert env dirty. induction kvs as [|[k v] kvs IH]; intros env dirty Hnd.
  - cbn. now rewrite orb_false_r.
  - rewrite fmap_cons in Hnd. apply NoDup_cons in Hnd as [Hk Hnd].
    cbn [SetBootVars_range].
    destruct (String.eqb_spec (Get env k) v) as [Heq|Hne].
    + rewrite IH by assumption. unfold differing.
      now rewrite (filter_cons_False _ (k, v)) by (cbn; tauto).
    + rewrite IH, differing_after_Set by assumption. unfold differing.
      rewrite (filter_cons_True _ (k, v)) by exact Hne.
      f_equal. now rewrite orb_true_r.
Qed.

Lemma differing_nil env kvs :
  differing env kvs = [] ↔ ∀ k v, (k, v) ∈ kvs → Get env k = v.
Proof.
  unfold differing. split.
  - intros H k v Hin. destruct (decide (Get env k = v)) as [|Hne]; [assumption|].
    assert ((k, v) ∈ filter (λ kv, Get env kv.1 ≠ kv.2) kvs) as Hf
      by now apply list_elem_of_filter.
    rewrite H in Hf. now apply elem_of_nil in Hf.
  - intros H. apply elem_of_nil_inv. intros [k v] Hf%list_elem_of_filter.
    destruct Hf as [Hne Hin]. apply Hne. cbn. now apply H.
Qed.

Section SetBootVars_facts.
Context {W : Type} (h : handler W).

(** One call of [SetBootVars] on a store that opens. *)
Lemma SetBootVars_in_run (u : uboot) (kvs : list (string * string)) (w : W) f env :
  let open := ubootenv_OpenWithFlags f (flags_passed (variant_of u) OpenBestEffort) in
  envFile u = Ret f → NoDup kvs.*1 → answer h open w = Ok env →
  let env' := set_all env (differing env kvs) in
  run h (SetBootVars_in u kvs) w
  = if bool_decide (differing env kvs ≠ [])
    then mkRan (Done (answer h (Env_Save env') (after h open w)))
               [open; Env_Save env'] (after h (Env_Save env') (after h open w))
    else mkRan (Done None) [open] (after h open w).
Proof.
  intros open Hf Hnd Hopen env'. unfold SetBootVars_in. rewrite Hf. run_step.
  rewrite openEnvWithFlags_call. run_step. fold open. rewrite Hopen.
  rewrite SetBootVars_range_differing by assumption. fold env'. cbn [orb].
  now destruct (bool_decide (differing env kvs ≠ [])).
Qed.

(** C2, as amended. Once the store is open, [SetBootVars] sets those
    entries of the map whose value differs from the stored one and no
    other, whatever the order of the iteration; it saves the store once
    when at least one entry differed and not at all when none did. Called
    again with the same map on a store that opens with the variables the
    first call left, it saves nothing: so two calls with the same map save
    once in the first call when an entry differed, never in the first call
    when none did, and never in the second. *)
Theorem SetBootVars_saves_when_dirty (u : uboot) (values : gmap string string)
    (kvs : list (string * string)) (w : W) f env :
  let open := ubootenv_OpenWithFlags f (flags_passed (variant_of u) OpenBestEffort) in
  envFile u = Ret f → kvs ≡ₚ map_to_list values → answer h open w = Ok env →
  let env' := set_all env (differing env kvs) in
  let r := run h (SetBootVars_in u kvs) w in
  SetBootVars_range env false kvs = (env', bool_decide (differing env kvs ≠ []))
  ∧ (∀ k v, (k, v) ∈ differing env kvs ↔ values !! k = Some v ∧ Get env k ≠ v)
  ∧ (∀ k v, values !! k = Some v → Get env' k = v)
  ∧ (∀ k, values !! k = None → Get env' k = Get env k)
  ∧ ((∃ k v, values !! k = Some v ∧ Get env k ≠ v) →
       calls r = [open; Env_Save env'] ∧ saves (calls r) = 1%nat
       ∧ ended r = Done (answer h (Env_Save env') (after h open w)))
  ∧ ((∀ k v, values !! k = Some v → Get env k = v) →
       calls r = [open] ∧ saves (calls r) = 0%nat ∧ ended r = Done None)
  ∧ (∀ (kvs2 : list (string * string)) env2,
       kvs2 ≡ₚ map_to_list values →
       answer h open (world r) = Ok env2 → Env_data env2 = Env_data env' →
       let r2 := run h (SetBootVars_in u kvs2) (world r) in
       calls r2 = [open] ∧ saves (calls r2) = 0%nat ∧ ended r2 = Done None).
Proof.
  intros open Hf Hperm Hopen env' r.
  assert (∀ l, l ≡ₚ map_to_list values → NoDup l.*1) as Hnodup.
  { intros l Hl. rewrite Hl. apply NoDup_fst_map_to_list. }
  assert (∀ l, l ≡ₚ map_to_list values → ∀ k v, (k, v) ∈ l ↔ values !! k = Some v)
    as Hin.
  { intros l Hl k v. rewrite Hl. apply elem_of_map_to_list. }
  pose proof (Hnodup kvs Hperm) as Hnd.
  assert (∀ k v, (k, v) ∈ differing env kvs ↔ values !! k = Some v ∧ Get env k ≠ v)
    as Hdiff.
  { intros k v. unfold differing. rewrite list_elem_of_filter, (Hin kvs Hperm). cbn. tauto. }
  assert (∀ k v, values !! k = Some v → Get env' k = v) as Hset.
  { intros k v Hkv. destruct (decide (Get env k = v)) as [Heq|Hne].
    - subst env'. rewrite set_all_other; [assumption|].
      intros ([k' v'] & -> & Hd)%list_elem_of_fmap. cbn [fst] in *.
      apply Hdiff in Hd as [Hkv' Hne]. congruence.
    - subst env'. apply set_all_same; [|now apply Hdiff].
      unfold differing. eapply NoDup_fmap_fst; [|apply NoDup_filter].
      + intros k0 v1 v2 [_ H1]%list_elem_of_filter [_ H2]%list_elem_of_filter.
        apply (Hin kvs Hperm) in H1, H2. congruence.
      + eapply NoDup_fmap_1. exact Hnd. }
  assert (∀ k, values !! k = None → Get env' k = Get env k) as Hunset.
  { intros k Hk. subst env'. apply set_all_other.
    intros ([k' v'] & -> & Hd)%list_elem_of_fmap. apply Hdiff in Hd as [Hkv _].
    cbn [fst] in *. congruence. }
  assert (∀ e l, l ≡ₚ map_to_list values →
            (differing e l = [] ↔ ∀ k v, values !! k = Some v → Get e k = v)) as Hnil.
  { intros e l Hl. rewrite differing_nil. split; intros H k v Hkv; apply H;
      now apply (Hin l Hl). }
  pose proof (SetBootVars_in_run u kvs w f env Hf Hnd Hopen) as Hrun.
  cbv zeta in Hrun. fold open env' r in Hrun.
  split; [now rewrite SetBootVars_range_differing|].
  split; [exact Hdiff|]. split; [exact Hset|]. split; [exact Hunset|].
  split; [|split].
  - intros (k & v & Hkv & Hne).
    rewrite bool_decide_eq_true_2 in Hrun; [now rewrite Hrun|].
    intros Hn. apply Hne. now apply (proj1 (Hnil env kvs Hperm) Hn).
  - intros Hall. pose proof (proj2 (Hnil env kvs Hperm) Hall) as Hn.
    rewrite bool_decide_eq_false_2 in Hrun by tauto. now rewrite Hrun.
  - intros kvs2 env2 Hperm2 Hopen2 Hdata r2. subst r2.
    rewrite (SetBootVars_in_run u kvs2 (world r) f env2 Hf (Hnodup kvs2 Hperm2) Hopen2).
    rewrite bool_decide_eq_false_2; [now repeat split|].
    intros Hn. apply Hn. apply (proj2 (Hnil env2 kvs2 Hperm2)). intros k v Hkv.
    unfold Get. rewrite Hdata. now apply Hset.
Qed.
End SetBootVars_facts.

Lemma SetBootVars_saves_when_dirty_witness :
  saves (calls (run on_disk (SetBootVars (newUboot "/r" run_mode) {[ "mode" := "try" ]})
                  (with_store ∅))) = 1%nat
  ∧ saves (calls (run on_disk (SetBootVars (newUboot "/r" run_mode) {[ "mode" := "try" ]})
                    (world (run on_disk (SetBootVars (newUboot "/r" run_mode)
                                           {[ "mode" := "try" ]}) (with_store ∅)))))
    = 0%nat.
Proof.
  assert (map_to_list ({[ "mode" := "try" ]} : gmap string string) ≡ₚ
          map_to_list ({[ "mode" := "try" ]} : gmap string string)) as Hperm by reflexivity.
  destruct (SetBootVars_saves_when_dirty on_disk (newUboot "/r" run_mode)
              {[ "mode" := "try" ]} (map_to_list {[ "mode" := "try" ]}) (with_store ∅)
              "/r/boot/uboot/boot.sel"
              (mkEnv "/r/boot/uboot/boot.sel" 4096 OpenBestEffort ∅)
              eq_refl Hperm ltac:(vm_compute; reflexivity))
    as (_ & _ & _ & _ & Hfirst & _ & Hsecond).
  split.
  - apply Hfirst. exists "mode", "try". split; [apply lookup_singleton_eq | discriminate].
  - apply (Hsecond (map_to_list {[ "mode" := "try" ]})
             (mkEnv "/r/boot/uboot/boot.sel" 4096 OpenBestEffort {[ "mode" := "try" ]})
             Hperm); vm_compute; reflexivity.
Defined.

(** C2, as stated, fails: with the same map twice, the first call does
    not save when the store already holds the values of the map, and not
    when the map is empty. *)
Lemma SetBootVars_twice_first_call_saves_nothing :
  ¬ (saves (calls (run on_disk (SetBootVars (newUboot "/r" run_mode) {[ "mode" := "try" ]})
                     (with_store {[ "mode" := "try" ]}))) = 1%nat)
  ∧ ¬ (saves (calls (run on_disk (SetBootVars (newUboot "/r" run_mode) ∅)
                       (with_store ∅))) = 1%nat).
Proof. split; vm_compute; discriminate. Qed.

(** The run of the specification: root directory [/r], redundant
    variant, run mode, an empty store at [/r/boot/uboot/boot.sel]. Setting
    mode=try saves once, reading mode gives try, and setting it again
    saves nothing. *)
Example end_to_end :
  let u := newUboot "/r" run_mode in
  let values : gmap string string := {[ "mode" := "try" ]} in
  let r1 := run on_disk (SetBootVars u values) (with_store ∅) in
  let r2 := run on_disk (GetBootVars u ["mode"]) (world r1) in
  let r3 := run on_disk (SetBootVars u values) (world r2) in
  envFile u = Ret "/r/boot/uboot/boot.sel"
  ∧ saves (calls r1) = 1%nat ∧ ended r1 = Done None
  ∧ ended r2 = Done (Ok values)
  ∧ saves (calls r3) = 0%nat ∧ ended r3 = Done None.
Proof. vm_compute. repeat split. Qed.

(** * Further properties of uboot.go *)

(** ** Paths of a facade from the constructors *)

Section constructor_paths.
Import filepath.

Lemma render_inj rooted a b :
  cleaned rooted a → cleaned rooted b → render rooted a = render rooted b → a = b.
Proof.
  intros Ha Hb H.
  destruct (render_reads_back rooted a Ha) as (_ & _ & <-).
  destruct (render_reads_back rooted b Hb) as (_ & _ & <-).
  now rewrite H.
Qed.

(** Below a directory that is not the root or [.], a joined file name
    comes after a separator. *)
Lemma render_file rooted e out fname :
  render rooted (fname :: e :: out) = render rooted (e :: out) +:+ String "/" fname.
Proof.
  unfold render. rewrite (reverse_cons _ fname).
  rewrite join_sep_snoc by (rewrite reverse_cons; now destruct (reverse out)).
  destruct rooted; [now rewrite append_assoc | reflexivity].
Qed.

Lemma new_fields (v : Variant) (root : string) (blOpts : option Options) :
  variant_of (new v root blOpts) = v
  ∧ rootdir (base (new v root blOpts)) = root
  ∧ basedir (base (new v root blOpts)) = spec_basedir v (spec_case_of blOpts)
  ∧ ubootEnvFileName (base (new v root blOpts)) = spec_filename (spec_case_of blOpts).
Proof. destruct v, blOpts as [[[] []]|]; repeat split. Qed.

(** The directory and the environment file of a facade from the
    constructors, as output of [Clean]. *)
Lemma new_paths_rendered (v : Variant) (root : string) (blOpts : option Options) :
  root ≠ "" →
  let r := is_rooted root in
  let c := spec_case_of blOpts in
  cleaned r (path_elems v c ++ clean_elems r root)
  ∧ cleaned r (tail (path_elems v c) ++ clean_elems r root)
  ∧ dir (new v root blOpts) = Ret (render r (tail (path_elems v c) ++ clean_elems r root))
  ∧ envFile (new v root blOpts) = Ret (render r (path_elems v c ++ clean_elems r root)).
Proof.
  intros Hroot r c.
  destruct (new_fields v root blOpts) as (_ & Hr & Hb & Hf). fold c in Hb, Hf.
  assert (∀ s, cleaned r (fold_left (clean_step r) (split s) (clean_elems r root)))
    as Hcl by (intros s; apply fold_clean_step_cleaned;
               [apply split_no_sep | apply clean_elems_cleaned]).
  rewrite dir_not_empty_root, envFile_not_empty_root by now rewrite Hr.
  rewrite Hr, Hb, Hf, !Join_cons by assumption.
  cbn [join_sep]. rewrite !sep_append, !(Clean_app_sep root) by assumption. fold r.
  destruct v, c; cbn [spec_basedir spec_filename spec_default_basedir spec_direct_basedir];
    (split; [|split; [|split; reflexivity]]);
    match goal with
    | |- cleaned r (?l ++ _) =>
        first [ exact (Hcl "boot/uboot/uboot.env") | exact (Hcl "boot/uboot/boot.sel")
              | exact (Hcl "uboot/ubuntu/boot.sel") | exact (Hcl "boot/uboot-nr/uboot.env")
              | exact (Hcl "boot/uboot-nr/boot.sel") | exact (Hcl "uboot-nr/ubuntu/boot.sel")
              | exact (Hcl "boot/uboot") | exact (Hcl "uboot/ubuntu")
              | exact (Hcl "boot/uboot-nr") | exact (Hcl "uboot-nr/ubuntu") ]
    end.
Qed.

(** X5. For a facade from either constructor with a root directory, the
    environment file is the directory of the facade, a separator and the
    file name; the directory of that path is the directory of the facade
    again, and neither path is empty. *)
Theorem envFile_in_dir (v : Variant) (root : string) (blOpts : option Options) :
  root ≠ "" →
  ∃ d, dir (new v root blOpts) = Ret d
       ∧ envFile (new v root blOpts)
         = Ret (d +:+ "/" +:+ ubootEnvFileName (base (new v root blOpts)))
       ∧ Dir (d +:+ "/" +:+ ubootEnvFileName (base (new v root blOpts))) = d
       ∧ d ≠ "".
Proof.
  intros Hroot.
  destruct (new_paths_rendered v root blOpts Hroot) as (_ & Hc & Hd & Hf).
  destruct (new_fields v root blOpts) as (_ & _ & _ & Hn).
  assert (real (ubootEnvFileName (base (new v root blOpts)))) as Hreal
    by (rewrite Hn; destruct (spec_case_of blOpts); now repeat split).
  pose proof (dir_is_Dir_envFile _ _ Hf Hreal) as Hdir.
  rewrite Hd in Hdir. injection Hdir as Hdir.
  eexists. split; [exact Hd|].
  assert (render (is_rooted root)
            (path_elems v (spec_case_of blOpts) ++ clean_elems (is_rooted root) root)
          = render (is_rooted root)
              (tail (path_elems v (spec_case_of blOpts)) ++ clean_elems (is_rooted root) root)
            +:+ "/" +:+ ubootEnvFileName (base (new v root blOpts))) as E.
  { rewrite Hn, sep_append.
    destruct v, (spec_case_of blOpts); cbn [path_elems tail app spec_filename];
      apply render_file. }
  split; [now rewrite Hf, E|]. split; [now rewrite <- E, <- Hdir|].
  now apply render_reads_back.
Qed.

Lemma envFile_in_dir_witness :
  dir (new NonRedundant "/r" run_mode) = Ret "/r/boot/uboot-nr"
  ∧ envFile (new NonRedundant "/r" run_mode) = Ret "/r/boot/uboot-nr/boot.sel".
Proof.
  destruct (envFile_in_dir NonRedundant "/r" run_mode ltac:(discriminate))
    as (d & Hd & Hf & _ & _).
  assert (d = "/r/boot/uboot-nr") as -> by (vm_compute in Hd; congruence).
  split; [exact Hd | exact Hf].
Defined.
End constructor_paths.

(** ** The two variants side by side *)

Section variants_apart.
Import filepath.

(** X3. With the same root directory, a facade of the redundant variant
    and one of the non-redundant variant never have the same directory or
    the same environment file, whatever the options of either. *)
Theorem variants_use_different_files (root : string) (o1 o2 : option Options) :
  root ≠ "" →
  ∃ d1 f1 d2 f2,
    dir (newUboot root o1) = Ret d1 ∧ envFile (newUboot root o1) = Ret f1
    ∧ dir (newUbootNoRedundEnv root o2) = Ret d2
    ∧ envFile (newUbootNoRedundEnv root o2) = Ret f2
    ∧ d1 ≠ d2 ∧ f1 ≠ f2.
Proof.
  intros Hroot.
  destruct (new_paths_rendered Redundant root o1 Hroot) as (Hc1 & Hc1' & Hd1 & Hf1).
  destruct (new_paths_rendered NonRedundant root o2 Hroot) as (Hc2 & Hc2' & Hd2 & Hf2).
  do 4 eexists. split; [exact Hd1|]. split; [exact Hf1|].
  split; [exact Hd2|]. split; [exact Hf2|].
  split; intros H; apply render_inj in H; try assumption;
    destruct (spec_case_of o1), (spec_case_of o2); discriminate.
Qed.

Lemma variants_use_different_files_witness :
  envFile (newUboot "/r" run_mode) = Ret "/r/boot/uboot/boot.sel"
  ∧ envFile (newUbootNoRedundEnv "/r" run_mode) = Ret "/r/boot/uboot-nr/boot.sel".
Proof.
  destruct (variants_use_different_files "/r" run_mode run_mode ltac:(discriminate))
    as (d1 & f1 & d2 & f2 & _ & Hf1 & _ & Hf2 & _ & _).
  assert (f1 = "/r/boot/uboot/boot.sel") as <- by (vm_compute in Hf1; congruence).
  assert (f2 = "/r/boot/uboot-nr/boot.sel") as <- by (vm_compute in Hf2; congruence).
  split; [exact Hf1 | exact Hf2].
Defined.

Lemma Join_real_differ (d a b : string) :
  real a → real b → a ≠ b → Join [d; a] ≠ Join [d; b].
Proof.
  intros Ha Hb Hab.
  pose proof Ha as (Ha0 & _ & _ & Hsa). pose proof Hb as (Hb0 & _ & _ & Hsb).
  destruct (String.eqb_spec d "") as [->|Hd].
  - cbn [Join]. apply eqb_neq in Ha0, Hb0. rewrite (String.eqb_refl ""), Ha0, Hb0.
    cbn [join_sep]. apply eqb_neq in Ha0, Hb0.
    rewrite !Clean_nonempty_input by assumption.
    assert (∀ x, real x → is_rooted x = false ∧ clean_elems false x = [x]) as Hx.
    { intros x Hr. pose proof Hr as (Hx0 & _ & _ & Hs). split.
      - destruct x as [|c x]; [congruence|]. cbn in Hs |- *.
        apply andb_true_iff in Hs as [Hc _]. now apply negb_true_iff in Hc.
      - unfold clean_elems. rewrite split_of_no_sep by assumption.
        cbn [fold_left]. now apply clean_step_real. }
    destruct (Hx a Ha) as [-> ->]. destruct (Hx b Hb) as [-> ->]. exact Hab.
  - rewrite !Join_two, !Clean_app_sep by assumption.
    rewrite !split_of_no_sep by assumption. cbn [fold_left].
    rewrite !clean_step_real by assumption. intros H.
    assert (∀ x, real x →
              cleaned (is_rooted d) (x :: clean_elems (is_rooted d) d)) as Hcl.
    { intros x Hx. rewrite <- (clean_step_real (is_rooted d) _ x Hx).
      apply clean_step_cleaned; [apply Hx | apply clean_elems_cleaned]. }
    apply render_inj in H; [congruence | now apply Hcl | now apply Hcl].
Qed.
End variants_apart.

(** ** Option processing and defaults together *)

Lemma envFile_cases (u : uboot) :
  (rootdir (base u) = "" ∧ envFile u = Panic "internal error: unset rootdir")
  ∨ (rootdir (base u) ≠ "" ∧ ∃ f, envFile u = Ret f).
Proof.
  destruct (String.eqb_spec (rootdir (base u)) "") as [H|H].
  - left. split; [assumption | now apply envFile_empty_root].
  - right. split; [assumption|]. eexists. now apply envFile_not_empty_root.
Qed.

Lemma processBlOpts_keeps (u : uboot) (blOpts : option Options) :
  rootdir (base (processBlOpts u blOpts)) = rootdir (base u)
  ∧ variant_of (processBlOpts u blOpts) = variant_of u.
Proof. destruct u as [b|b], blOpts as [[[] []]|]; now destruct b. Qed.

Lemma setDefaults_keeps (u : uboot) :
  rootdir (base (setDefaults u)) = rootdir (base u)
  ∧ variant_of (setDefaults u) = variant_of u.
Proof. now destruct u. Qed.

Lemma processBlOpts_twice (u : uboot) (blOpts : option Options) :
  processBlOpts (processBlOpts u blOpts) blOpts = processBlOpts u blOpts.
Proof. destruct u as [b|b], blOpts as [[[] []]|]; now destruct b. Qed.

Lemma setDefaults_absorbs (u : uboot) (blOpts : option Options) :
  setDefaults (processBlOpts u blOpts) = setDefaults u.
Proof. destruct u as [b|b], blOpts as [[[] []]|]; now destruct b. Qed.

(** X11. Processing the same options a second time changes nothing, and
    so does applying the defaults a second time; applying the defaults
    undoes whatever option processing did; processing after the defaults
    gives the facade of the constructor; and neither of the two touches
    the root directory or the name of the variant. *)
Theorem options_and_defaults_compose (u : uboot) (blOpts blOpts' : option Options) :
  processBlOpts (processBlOpts u blOpts) blOpts = processBlOpts u blOpts
  ∧ setDefaults (setDefaults u) = setDefaults u
  ∧ setDefaults (processBlOpts u blOpts) = setDefaults u
  ∧ processBlOpts (setDefaults (processBlOpts u blOpts')) blOpts
    = new (variant_of u) (rootdir (base u)) blOpts
  ∧ rootDir (processBlOpts u blOpts) = rootDir u
  ∧ rootDir (setDefaults u) = rootDir u
  ∧ Name (processBlOpts u blOpts) = Name u
  ∧ Name (setDefaults u) = Name u.
Proof.
  split; [apply processBlOpts_twice|]. split; [now destruct u|].
  split; [apply setDefaults_absorbs|]. rewrite setDefaults_absorbs.
  repeat split; destruct u as [b|b], blOpts as [[[] []]|]; now destruct b.
Qed.

(** ** InstallBootConfig in every world *)

Section InstallBootConfig_always.
Context {W : Type} (h : handler W).

Lemma InstallBootConfig_stat_failed (u : uboot) gadgetDir blOpts (w : W) err :
  let stat := os_Stat (filepath.Join [gadgetDir; Name u +:+ ".conf"]) in
  answer h stat w = Err err →
  run h (InstallBootConfig u gadgetDir blOpts) w
  = mkRan (Done (u, Some err)) [stat] (after h stat w).
Proof.
  intros stat Hst. unfold InstallBootConfig. cbv zeta. fold stat.
  run_step. now rewrite Hst.
Qed.

Lemma InstallBootConfig_empty_no_root (u : uboot) gadgetDir blOpts (w : W) fi :
  let stat := os_Stat (filepath.Join [gadgetDir; Name u +:+ ".conf"]) in
  answer h stat w = Ok fi → Size fi = 0 → rootdir (base u) = "" →
  run h (InstallBootConfig u gadgetDir blOpts) w
  = mkRan (Panicked "internal error: unset rootdir") [stat] (after h stat w).
Proof.
  intros stat Hst Hsz Hroot. unfold InstallBootConfig. cbv zeta. fold stat.
  run_step. rewrite Hst, Hsz. cbn [Z.eqb].
  rewrite envFile_empty_root by now rewrite (proj1 (processBlOpts_keeps u blOpts)).
  reflexivity.
Qed.

Lemma InstallBootConfig_nonempty_run (u : uboot) gadgetDir blOpts (w : W) fi :
  let gadgetFile := filepath.Join [gadgetDir; Name u +:+ ".conf"] in
  let stat := os_Stat gadgetFile in
  let w1 := after h stat w in
  answer h stat w = Ok fi → Size fi ≠ 0 →
  run h (InstallBootConfig u gadgetDir blOpts) w
  = if match blOpts with
       | Some o => Role_eqb (blRole o) RoleRecovery
       | None => false
       end
    then mkRan (Done (setDefaults u, Some "non-empty uboot.env not supported on UC20+ yet"))
               [stat] w1
    else match envFile (setDefaults u) with
         | Ret systemFile =>
             let install := genericInstallBootConfig gadgetFile systemFile in
             mkRan (Done (setDefaults u, answer h install w1)) [stat; install]
                   (after h install w1)
         | _ => mkRan (Panicked "internal error: unset rootdir") [stat] w1
         end.
Proof.
  intros gadgetFile stat w1 Hst Hsz. unfold InstallBootConfig. cbv zeta.
  fold gadgetFile stat. run_step. rewrite Hst. apply Z.eqb_neq in Hsz. rewrite Hsz.
  destruct (match blOpts with
            | Some o => Role_eqb (blRole o) RoleRecovery
            | None => false
            end); [reflexivity|].
  destruct (envFile_cases (setDefaults u)) as [[_ ->]|[_ [f ->]]]; reflexivity.
Qed.

(** X1. When [os.Stat] on the gadget file fails, as it does when there
    is no such file, [InstallBootConfig] returns that error; the facade is
    as it was and [os.Stat] is the only call made. This holds for every
    facade, also for one without a root directory. *)
Theorem InstallBootConfig_stat_error (u : uboot) gadgetDir blOpts (w : W) err :
  let stat := os_Stat (filepath.Join [gadgetDir; Name u +:+ ".conf"]) in
  answer h stat w = Err err →
  let r := run h (InstallBootConfig u gadgetDir blOpts) w in
  ended r = Done (u, Some err) ∧ calls r = [stat] ∧ world r = after h stat w.
Proof.
  intros stat Hst r. subst r.
  now rewrite (InstallBootConfig_stat_failed u gadgetDir blOpts w err Hst).
Qed.

(** X2. The first call of [InstallBootConfig] is always [os.Stat] on the
    file in the gadget directory that is named after the variant,
    uboot.conf for the redundant one and uboot-nr.conf for the other; for
    the same gadget directory these are never the same file. *)
Theorem InstallBootConfig_gadget_file_of_variant (b1 b2 : ubootBase) gadgetDir
    (o1 o2 : option Options) (w1 w2 : W) :
  let f1 := filepath.Join [gadgetDir; "uboot.conf"] in
  let f2 := filepath.Join [gadgetDir; "uboot-nr.conf"] in
  head (calls (run h (InstallBootConfig (ubootRedundEnv b1) gadgetDir o1) w1))
    = Some (os_Stat f1)
  ∧ head (calls (run h (InstallBootConfig (ubootNoRedundEnv b2) gadgetDir o2) w2))
    = Some (os_Stat f2)
  ∧ f1 ≠ f2.
Proof.
  intros f1 f2. split; [reflexivity|]. split; [reflexivity|].
  apply Join_real_differ; [now repeat split | now repeat split | discriminate].
Qed.

(** X13. Whenever [InstallBootConfig] returns, the facade it leaves is
    the one it was given when [os.Stat] failed, that facade after option
    processing when the gadget file is empty, and that facade with the
    defaults when it is not; so the root directory and the variant of a
    facade never change. *)
Theorem InstallBootConfig_facade_after (u : uboot) gadgetDir blOpts (w : W) u' err :
  let stat := os_Stat (filepath.Join [gadgetDir; Name u +:+ ".conf"]) in
  ended (run h (InstallBootConfig u gadgetDir blOpts) w) = Done (u', err) →
  u' = match answer h stat w with
       | Err _ => u
       | Ok fi => if Size fi =? 0 then processBlOpts u blOpts else setDefaults u
       end
  ∧ rootDir u' = rootDir u
  ∧ Name u' = Name u.
Proof.
  intros stat Hend.
  assert (u' = match answer h stat w with
               | Err _ => u
               | Ok fi => if Size fi =? 0 then processBlOpts u blOpts else setDefaults u
               end) as Hu.
  { destruct (answer h stat w) as [fi|e] eqn:Hst.
    - destruct (Z.eqb_spec (Size fi) 0) as [Hsz|Hsz].
      + destruct (envFile_cases (processBlOpts u blOpts)) as [[Hr _]|[_ [f Hf]]].
        * rewrite (proj1 (processBlOpts_keeps u blOpts)) in Hr.
          rewrite (InstallBootConfig_empty_no_root u gadgetDir blOpts w fi Hst Hsz Hr)
            in Hend. discriminate.
        * rewrite (InstallBootConfig_empty_run h u gadgetDir blOpts w fi f Hst Hsz Hf)
            in Hend.
          destruct (answer h (os_MkdirAll (filepath.Dir f) 493) _); [cbn in Hend; congruence|].
          destruct (ended (run h (createEnv (processBlOpts u blOpts) f 4096) _))
            as [[env|e]|msg]; cbn in Hend; congruence.
      + rewrite (InstallBootConfig_nonempty_run u gadgetDir blOpts w fi Hst Hsz) in Hend.
        destruct (match blOpts with
                  | Some o => Role_eqb (blRole o) RoleRecovery
                  | None => false
                  end); [cbn in Hend; congruence|].
        destruct (envFile (setDefaults u)); cbn in Hend; congruence.
    - rewrite (InstallBootConfig_stat_failed u gadgetDir blOpts w e Hst) in Hend.
      cbn in Hend. congruence. }
  split; [exact Hu|]. rewrite Hu.
  destruct (answer h stat w) as [fi|e]; [|now split].
  destruct (Size fi =? 0);
    [destruct u as [b|b], blOpts as [[[] []]|]; now destruct b | now destruct u].
Qed.

(** X8. On a facade without a root directory [InstallBootConfig] never
    gets past [os.Stat]: that is its only call in every world, so nothing
    is made, created, saved or installed. It returns the error of
    [os.Stat], or the error for a non-empty recovery file, and panics in
    every other case. *)
Theorem InstallBootConfig_without_rootdir (u : uboot) gadgetDir blOpts (w : W) :
  rootdir (base u) = "" →
  let stat := os_Stat (filepath.Join [gadgetDir; Name u +:+ ".conf"]) in
  let r := run h (InstallBootConfig u gadgetDir blOpts) w in
  calls r = [stat]
  ∧ ended r
    = match answer h stat w with
      | Err err => Done (u, Some err)
      | Ok fi =>
          if negb (Size fi =? 0)
             && match blOpts with
                | Some o => Role_eqb (blRole o) RoleRecovery
                | None => false
                end
          then Done (setDefaults u, Some "non-empty uboot.env not supported on UC20+ yet")
          else Panicked "internal error: unset rootdir"
      end.
Proof.
  intros Hroot stat r. subst r.
  destruct (answer h stat w) as [fi|e] eqn:Hst.
  - destruct (Z.eqb_spec (Size fi) 0) as [Hsz|Hsz].
    + now rewrite (InstallBootConfig_empty_no_root u gadgetDir blOpts w fi Hst Hsz Hroot).
    + rewrite (InstallBootConfig_nonempty_run u gadgetDir blOpts w fi Hst Hsz).
      destruct (match blOpts with
                | Some o => Role_eqb (blRole o) RoleRecovery
                | None => false
                end); [now split|].
      rewrite envFile_empty_root by now rewrite (proj1 (setDefaults_keeps u)).
      now split.
  - now rewrite (InstallBootConfig_stat_failed u gadgetDir blOpts w e Hst).
Qed.

(** X12. For a facade from a constructor, [InstallBootConfig] with the
    options the facade was built with leaves it as it is when the gadget
    file is empty, and leaves the facade that the constructor gives
    without options when the gadget file is not empty. *)
Theorem InstallBootConfig_of_constructed (v : Variant) (root : string)
    (blOpts : option Options) gadgetDir (w : W) fi u' err :
  let u := new v root blOpts in
  answer h (os_Stat (filepath.Join [gadgetDir; Name u +:+ ".conf"])) w = Ok fi →
  ended (run h (InstallBootConfig u gadgetDir blOpts) w) = Done (u', err) →
  u' = if Size fi =? 0 then new v root blOpts else new v root None.
Proof.
  intros u Hst Hend. subst u.
  destruct (Z.eqb_spec (Size fi) 0) as [Hsz|Hsz].
  - destruct (envFile_cases (processBlOpts (new v root blOpts) blOpts))
      as [[Hr _]|[_ [f Hf]]].
    + rewrite (proj1 (processBlOpts_keeps _ blOpts)) in Hr.
      rewrite (InstallBootConfig_empty_no_root _ gadgetDir blOpts w fi Hst Hsz Hr) in Hend.
      discriminate.
    + rewrite (InstallBootConfig_empty_run h _ gadgetDir blOpts w fi f Hst Hsz Hf) in Hend.
      assert (processBlOpts (new v root blOpts) blOpts = new v root blOpts) as E
        by (destruct v; apply processBlOpts_twice).
      rewrite E in Hend.
      destruct (answer h (os_MkdirAll (filepath.Dir f) 493) _); [cbn in Hend; congruence|].
      destruct (ended (run h (createEnv (new v root blOpts) f 4096) _))
        as [[env|e]|msg]; cbn in Hend; congruence.
  - rewrite (InstallBootConfig_nonempty_run _ gadgetDir blOpts w fi Hst Hsz) in Hend.
    assert (setDefaults (new v root blOpts) = new v root None) as E
      by (destruct v; apply setDefaults_absorbs).
    rewrite E in Hend.
    destruct (match blOpts with
              | Some o => Role_eqb (blRole o) RoleRecovery
              | None => false
              end); [cbn in Hend; congruence|].
    destruct (envFile (new v root None)); cbn in Hend; congruence.
Qed.
End InstallBootConfig_always.

(** ** Reading and writing variables in every world *)

Section vars_always.
Context {W : Type} (h : handler W).

(** A facade without a root directory panics at the first path it needs. *)
Lemma no_root_panics {A} (u : uboot) (k : string → Prog A) (w : W) :
  rootdir (base u) = "" →
  run h (envFile u ≫= k) w = mkRan (Panicked "internal error: unset rootdir") [] w
  ∧ run h (dir u ≫= k) w = mkRan (Panicked "internal error: unset rootdir") [] w.
Proof.
  intros Hroot. rewrite envFile_empty_root by assumption.
  unfold dir. rewrite ubootBase_dir_no_root by assumption. now split.
Qed.

Lemma SetBootVars_in_run_any (u : uboot) (kvs : list (string * string)) (w : W) f :
  let open := ubootenv_OpenWithFlags f (flags_passed (variant_of u) OpenBestEffort) in
  envFile u = Ret f →
  run h (SetBootVars_in u kvs) w
  = match answer h open w with
    | Err err => mkRan (Done (Some err)) [open] (after h open w)
    | Ok env =>
        if (SetBootVars_range env false kvs).2
        then mkRan (Done (answer h (Env_Save (SetBootVars_range env false kvs).1)
                            (after h open w)))
                   [open; Env_Save (SetBootVars_range env false kvs).1]
                   (after h (Env_Save (SetBootVars_range env false kvs).1) (after h open w))
        else mkRan (Done None) [open] (after h open w)
    end.
Proof.
  intros open Hf. unfold SetBootVars_in. rewrite Hf. run_step.
  rewrite openEnvWithFlags_call. run_step. fold open.
  destruct (answer h open w) as [env|err]; [|reflexivity].
  now destruct (SetBootVars_range env false kvs) as [env' []].
Qed.

Lemma GetBootVars_run_any (u : uboot) (names : list string) (w : W) f :
  let open := ubootenv_OpenWithFlags f (flags_passed (variant_of u) OpenBestEffort) in
  envFile u = Ret f →
  run h (GetBootVars u names) w
  = mkRan (Done (match answer h open w with
                 | Ok env =>
                     Ok (fold_left (λ out name, <[name := Get env name]> out) names ∅)
                 | Err err => Err err
                 end)) [open] (after h open w).
Proof.
  intros open Hf. unfold GetBootVars. cbv zeta. rewrite Hf. run_step.
  rewrite openEnvWithFlags_call. run_step. fold open.
  now destruct (answer h open w).
Qed.

(** X4. When the store cannot be opened, [SetBootVars] returns the error
    of the open, and [GetBootVars] returns it with no map; the open is the
    only call either makes, so nothing is saved. *)
Theorem vars_open_error (u : uboot) (kvs : list (string * string)) (names : list string)
    (w : W) f err :
  let open := ubootenv_OpenWithFlags f (flags_passed (variant_of u) OpenBestEffort) in
  envFile u = Ret f → answer h open w = Err err →
  run h (SetBootVars_in u kvs) w = mkRan (Done (Some err)) [open] (after h open w)
  ∧ run h (GetBootVars u names) w = mkRan (Done (Err err)) [open] (after h open w).
Proof.
  intros open Hf Hopen.
  rewrite (SetBootVars_in_run_any u kvs w f Hf), (GetBootVars_run_any u names w f Hf).
  fold open. now rewrite Hopen.
Qed.

(** X6. In every world and for every facade, [Present] makes no call but
    [osutil.FileExists] and [GetBootVars] no call but the open of the
    store, so neither ever writes; [SetBootVars] saves at most once, and
    only after an open. *)
Theorem reads_never_write (u : uboot) (kvs : list (string * string))
    (names : list string) (w : W) :
  (∀ c, c ∈ calls (run h (Present u) w) → ∃ f, c = osutil_FileExists f)
  ∧ (∀ c, c ∈ calls (run h (GetBootVars u names) w) →
       ∃ f flags, c = ubootenv_OpenWithFlags f flags)
  ∧ (saves (calls (run h (SetBootVars_in u kvs) w)) ≤ 1)%nat
  ∧ (∀ env, Env_Save env ∈ calls (run h (SetBootVars_in u kvs) w) →
       ∃ f flags, head (calls (run h (SetBootVars_in u kvs) w))
                  = Some (ubootenv_OpenWithFlags f flags)).
Proof.
  destruct (envFile_cases u) as [[Hroot _]|[_ [f Hf]]].
  - unfold Present, GetBootVars, SetBootVars_in. cbv zeta.
    rewrite !(proj1 (no_root_panics u _ w Hroot)). cbn [calls saves filter].
    repeat split; try (intros c Hc; now apply elem_of_nil in Hc). vm_compute. lia.
  - rewrite (SetBootVars_in_run_any u kvs w f Hf), (GetBootVars_run_any u names w f Hf).
    unfold Present. rewrite Hf. run_step. cbn [calls].
    split; [intros c ->%list_elem_of_singleton; eauto|].
    split; [intros c ->%list_elem_of_singleton; eauto|].
    destruct (answer h _ w) as [env|err]; [|split; [vm_compute; lia | cbn; eauto]].
    destruct (SetBootVars_range env false kvs).2; cbn [calls]; (split; [|cbn; eauto]).
    + unfold saves. rewrite filter_cons_False by (cbn; discriminate).
      rewrite filter_cons_True by reflexivity. cbn. lia.
    + unfold saves. rewrite filter_cons_False by (cbn; discriminate). cbn. lia.
Qed.

(** X7. On a facade without a root directory, [Present], [SetBootVars],
    [GetBootVars], [ExtractKernelAssets] and [RemoveKernelAssets] panic
    before they make any call; [ExtractRecoveryKernelAssets], which reads
    the root directory as it is, does not panic. *)
Theorem no_rootdir_panics_before_any_call (u : uboot) (kvs : list (string * string))
    (names : list string) (s : PlaceInfo) (snapf : Container)
    (recoverySystemDir : string) (w : W) :
  rootdir (base u) = "" →
  let panicked {A} : ran W A := mkRan (Panicked "internal error: unset rootdir") [] w in
  run h (Present u) w = panicked
  ∧ run h (SetBootVars_in u kvs) w = panicked
  ∧ run h (GetBootVars u names) w = panicked
  ∧ run h (ExtractKernelAssets u s snapf) w = panicked
  ∧ run h (RemoveKernelAssets u s) w = panicked
  ∧ ∃ err, ended (run h (ExtractRecoveryKernelAssets u recoverySystemDir s snapf) w)
           = Done err.
Proof.
  intros Hroot panicked.
  unfold Present, GetBootVars, SetBootVars_in, ExtractKernelAssets, RemoveKernelAssets.
  cbv zeta.
  rewrite !(proj1 (no_root_panics u _ w Hroot)), !(proj2 (no_root_panics u _ w Hroot)).
  repeat split. unfold ExtractRecoveryKernelAssets.
  destruct (String.eqb recoverySystemDir ""); cbn; eauto.
Qed.
End vars_always.

(** ** Kernel assets of a revision *)

Section kernel_assets.
Context {W : Type} (h : handler W).
Import filepath.

(** X9. With a root directory, the one call of [ExtractKernelAssets]
    extracts kernel.img, initrd.img and dtbs/* into the directory named
    after the file of the revision under the directory of the facade, that
    is under root directory and base directory, and returns what that call
    returns. *)
Theorem ExtractKernelAssets_target (u : uboot) (s : PlaceInfo) (snapf : Container) (w : W) :
  rootdir (base u) ≠ "" →
  let extract :=
    extractKernelAssetsToBootDir
      (Join [rootdir (base u); basedir (base u); Filename s]) snapf
      ["kernel.img"; "initrd.img"; "dtbs/*"] in
  run h (ExtractKernelAssets u s snapf) w
  = mkRan (Done (answer h extract w)) [extract] (after h extract w).
Proof.
  intros Hroot extract. unfold ExtractKernelAssets.
  rewrite dir_not_empty_root by assumption. run_step.
  subst extract. now rewrite Join_Join.
Qed.

(** X10. With a root directory and a revision whose file name is a
    plain name, the directory that [RemoveKernelAssets] passes on with the
    revision is the directory of the facade, and it is the parent of the
    directory that [ExtractKernelAssets] extracts the same revision into,
    which is a different directory. *)
Theorem RemoveKernelAssets_parent_of_extracted (u : uboot) (s : PlaceInfo)
    (snapf : Container) (w w' : W) :
  rootdir (base u) ≠ "" → real (Filename s) →
  ∃ d dstDir,
    dir u = Ret d
    ∧ run h (RemoveKernelAssets u s) w
      = mkRan (Done (answer h (removeKernelAssetsFromBootDir d s) w))
              [removeKernelAssetsFromBootDir d s]
              (after h (removeKernelAssetsFromBootDir d s) w)
    ∧ calls (run h (ExtractKernelAssets u s snapf) w')
      = [extractKernelAssetsToBootDir dstDir snapf ["kernel.img"; "initrd.img"; "dtbs/*"]]
    ∧ Dir dstDir = d
    ∧ dstDir ≠ d.
Proof.
  intros Hroot Hreal.
  set (d := Join [rootdir (base u); basedir (base u)]).
  assert (d ≠ "") as Hd by now apply Join_not_empty.
  assert (Clean d = d) as Hclean
    by (subst d; rewrite Join_cons by assumption; apply Clean_idempotent).
  exists d, (Join [d; Filename s]).
  split; [now apply dir_not_empty_root|].
  unfold RemoveKernelAssets, ExtractKernelAssets.
  rewrite dir_not_empty_root by assumption. fold d. run_step.
  split; [reflexivity|]. split; [reflexivity|].
  split; [now rewrite Dir_Join|].
  pose proof Hreal as (_ & _ & _ & Hs).
  assert (d = render (is_rooted d) (clean_elems (is_rooted d) d)) as E
    by now rewrite <- Clean_nonempty_input.
  rewrite Join_two, Clean_app_sep, (split_of_no_sep _ Hs) by assumption.
  cbn [fold_left]. rewrite clean_step_real by assumption.
  intros H.
  assert (Filename s :: clean_elems (is_rooted d) d = clean_elems (is_rooted d) d) as Hl.
  { apply (render_inj (is_rooted d)); [| apply clean_elems_cleaned | congruence].
    rewrite <- (clean_step_real (is_rooted d) _ _ Hreal).
    apply clean_step_cleaned; [assumption | apply clean_elems_cleaned]. }
  apply (f_equal length) in Hl. cbn in Hl. lia.
Qed.
End kernel_assets.

(** ** The order of the iteration, and reading back *)

Lemma Set_commute env k1 v1 k2 v2 :
  k1 ≠ k2 → Set_ (Set_ env k1 v1) k2 v2 = Set_ (Set_ env k2 v2) k1 v1.
Proof. intros H. unfold Set_. cbn. f_equal. now apply insert_insert_ne. Qed.

Lemma set_all_Permutation (l1 l2 : list (string * string)) :
  l1 ≡ₚ l2 → NoDup l1.*1 → ∀ env, set_all env l1 = set_all env l2.
Proof.
  induction 1 as [|[k v] l1 l2 Hp IH|[k1 v1] [k2 v2] l|l1 l2 l3 Hp1 IH1 Hp2 IH2];
    intros Hnd env.
  - reflexivity.
  - rewrite fmap_cons in Hnd. apply NoDup_cons in Hnd as [_ Hnd].
    change (set_all (Set_ env k v) l1 = set_all (Set_ env k v) l2). now apply IH.
  - rewrite !fmap_cons in Hnd. apply NoDup_cons in Hnd as [Hne _].
    change (set_all (Set_ (Set_ env k2 v2) k1 v1) l
            = set_all (Set_ (Set_ env k1 v1) k2 v2) l).
    rewrite Set_commute; [reflexivity|]. intros ->. apply Hne. now left.
  - rewrite IH1 by assumption. apply IH2. now rewrite <- Hp1.
Qed.

Lemma NoDup_differing env (kvs : list (string * string)) :
  NoDup kvs.*1 → NoDup (differing env kvs).*1.
Proof.
  intros H. eapply sublist_NoDup; [exact H|].
  apply fmap_sublist. unfold differing. apply sublist_filter.
Qed.

Lemma SetBootVars_range_Permutation env (kvs1 kvs2 : list (string * string)) :
  kvs1 ≡ₚ kvs2 → NoDup kvs1.*1 →
  SetBootVars_range env false kvs1 = SetBootVars_range env false kvs2.
Proof.
  intros Hp Hnd.
  assert (NoDup kvs2.*1) as Hnd2 by now rewrite <- Hp.
  assert (differing env kvs1 ≡ₚ differing env kvs2) as Hd
    by (unfold differing; now rewrite Hp).
  rewrite !SetBootVars_range_differing by assumption. cbn [orb]. f_equal.
  - apply set_all_Permutation; [assumption | now apply NoDup_differing].
  - apply bool_decide_ext. split; intros Hn E; apply Hn.
    + rewrite E in Hd. now apply Permutation_nil_r in Hd.
    + rewrite E in Hd. symmetry in Hd. now apply Permutation_nil_r in Hd.
Qed.

(** What the store holds after the loop of [SetBootVars]. *)
Lemma Get_after_range env (values : gmap string string) (kvs : list (string * string)) :
  kvs ≡ₚ map_to_list values →
  ∀ k, Get (SetBootVars_range env false kvs).1 k = default (Get env k) (values !! k).
Proof.
  intros Hp k.
  assert (NoDup kvs.*1) as Hnd by (rewrite Hp; apply NoDup_fst_map_to_list).
  assert (∀ k v, (k, v) ∈ kvs ↔ values !! k = Some v) as Hin
    by (intros k' v'; rewrite Hp; apply elem_of_map_to_list).
  rewrite SetBootVars_range_differing by assumption. cbn [fst].
  destruct (values !! k) as [v|] eqn:Hk; cbn [default].
  - destruct (decide (Get env k = v)) as [Heq|Hne].
    + rewrite set_all_other; [assumption|].
      intros ([k' v'] & -> & Hd)%list_elem_of_fmap. cbn [fst] in *.
      apply list_elem_of_filter in Hd as [Hne Hd]. apply Hin in Hd. cbn in Hne. congruence.
    + apply set_all_same; [now apply NoDup_differing|].
      apply list_elem_of_filter. split; [exact Hne | now apply Hin].
  - apply set_all_other.
    intros ([k' v'] & -> & Hd)%list_elem_of_fmap. cbn [fst] in *.
    apply list_elem_of_filter in Hd as [_ Hd]. apply Hin in Hd. congruence.
Qed.

Section order_and_roundtrip.
Context {W : Type} (h : handler W).

(** X14. The order in which the entries of the map are visited makes no
    difference: for any two orders [SetBootVars] makes the same calls,
    saves the same store and returns the same result. *)
Theorem SetBootVars_any_order (u : uboot) (values : gmap string string)
    (kvs1 kvs2 : list (string * string)) (w : W) :
  kvs1 ≡ₚ map_to_list values → kvs2 ≡ₚ map_to_list values →
  run h (SetBootVars_in u kvs1) w = run h (SetBootVars_in u kvs2) w.
Proof.
  intros H1 H2.
  destruct (envFile_cases u) as [[Hroot _]|[_ [f Hf]]].
  - unfold SetBootVars_in. now rewrite !(proj1 (no_root_panics h u _ w Hroot)).
  - rewrite !(SetBootVars_in_run_any h u _ w f Hf).
    destruct (answer h _ w) as [env|err]; [|reflexivity].
    rewrite (SetBootVars_range_Permutation env kvs1 kvs2); [reflexivity| |].
    + now rewrite H1, H2.
    + rewrite H1. apply NoDup_fst_map_to_list.
Qed.

(** X15. Reading after writing: when the store opens again with the
    variables that [SetBootVars] left, [GetBootVars] gives, for each name
    asked for, the value of the map that was written when the map has the
    name, and what the store held before when it has not. *)
Theorem GetBootVars_after_SetBootVars (u : uboot) (values : gmap string string)
    (kvs : list (string * string)) (names : list string) (w w' : W) f env env' :
  let open := ubootenv_OpenWithFlags f (flags_passed (variant_of u) OpenBestEffort) in
  envFile u = Ret f → kvs ≡ₚ map_to_list values →
  answer h open w = Ok env →
  answer h open w' = Ok env' →
  Env_data env' = Env_data (SetBootVars_range env false kvs).1 →
  ∃ out : gmap string string,
    ended (run h (GetBootVars u names) w') = Done (Ok out)
    ∧ ∀ name, name ∈ names →
        out !! name = Some (default (Get env name) (values !! name)).
Proof.
  intros open Hf Hp Hopen Hopen' Hdata.
  rewrite (GetBootVars_run_any h u names w' f Hf). fold open. rewrite Hopen'.
  eexists. split; [reflexivity|]. intros name Hn.
  rewrite GetBootVars_fold, decide_True by assumption. f_equal.
  rewrite <- (Get_after_range env values kvs Hp name).
  unfold Get. now rewrite Hdata.
Qed.

(** X16. The map of [GetBootVars] depends on which names are asked for
    only: asking for the same names in another order, or more than once,
    makes the same call and gives the same map. *)
Theorem GetBootVars_same_names (u : uboot) (names1 names2 : list string) (w : W) :
  (∀ name, name ∈ names1 ↔ name ∈ names2) →
  run h (GetBootVars u names1) w = run h (GetBootVars u names2) w.
Proof.
  intros Hsame.
  destruct (envFile_cases u) as [[Hroot _]|[_ [f Hf]]].
  - unfold GetBootVars. cbv zeta. now rewrite !(proj1 (no_root_panics h u _ w Hroot)).
  - rewrite !(GetBootVars_run_any h u _ w f Hf).
    destruct (answer h _ w) as [env|err]; [|reflexivity].
    do 3 f_equal. apply map_eq. intros name. rewrite !GetBootVars_fold.
    destruct (decide (name ∈ names1)) as [H1|H1], (decide (name ∈ names2)) as [H2|H2];
      try reflexivity; exfalso; apply Hsame in H1 || apply Hsame in H2; tauto.
Qed.
End order_and_roundtrip.

(** ** The further properties on a disk *)

Lemma InstallBootConfig_stat_error_witness :
  answer on_disk (os_Stat "/elsewhere/uboot.conf") full_gadget = Err ENOENT
  ∧ ended (run on_disk (InstallBootConfig (newUboot "/r" None) "/elsewhere" None) full_gadget)
    = Done (newUboot "/r" None, Some ENOENT).
Proof.
  assert (answer on_disk (os_Stat "/elsewhere/uboot.conf") full_gadget = Err ENOENT)
    as Hst by (vm_compute; reflexivity).
  split; [exact Hst|].
  now destruct (InstallBootConfig_stat_error on_disk (newUboot "/r" None) "/elsewhere"
                  None full_gadget ENOENT Hst) as (H & _).
Defined.

Lemma InstallBootConfig_facade_after_witness :
  ended (run on_disk (InstallBootConfig (newUboot "/r" run_mode) "/gadget" run_mode)
           full_gadget)
    = Done (newUboot "/r" None, None)
  ∧ rootDir (newUboot "/r" None) = "/r".
Proof.
  assert (ended (run on_disk (InstallBootConfig (newUboot "/r" run_mode) "/gadget" run_mode)
                   full_gadget)
          = Done (newUboot "/r" None, None)) as Hend by (vm_compute; reflexivity).
  split; [exact Hend|].
  destruct (InstallBootConfig_facade_after on_disk (newUboot "/r" run_mode) "/gadget"
              run_mode full_gadget (newUboot "/r" None) None Hend) as (_ & H & _).
  exact H.
Defined.

Lemma InstallBootConfig_without_rootdir_witness :
  calls (run on_disk (InstallBootConfig (newUboot "" run_mode) "/gadget" run_mode)
           (empty_gadget sound))
    = [os_Stat "/gadget/uboot.conf"]
  ∧ ended (run on_disk (InstallBootConfig (newUboot "" run_mode) "/gadget" run_mode)
             (empty_gadget sound))
    = Panicked "internal error: unset rootdir".
Proof.
  destruct (InstallBootConfig_without_rootdir on_disk (newUboot "" run_mode) "/gadget"
              run_mode (empty_gadget sound) eq_refl) as (H1 & H2).
  split; [exact H1 | exact H2].
Defined.

Lemma InstallBootConfig_of_constructed_witness :
  ended (run on_disk (InstallBootConfig (new NonRedundant "/r" no_slash_boot) "/gadget"
                        no_slash_boot) empty_gadget_nr)
  = Done (new NonRedundant "/r" no_slash_boot, None).
Proof.
  assert (answer on_disk (os_Stat "/gadget/uboot-nr.conf") empty_gadget_nr
          = Ok (mkFileInfo 0)) as Hst by (vm_compute; reflexivity).
  assert (∃ u',
            ended (run on_disk (InstallBootConfig (new NonRedundant "/r" no_slash_boot)
                                  "/gadget" no_slash_boot) empty_gadget_nr)
            = Done (u', None)) as (u' & Hend)
    by (eexists; vm_compute; reflexivity).
  rewrite Hend. do 2 f_equal.
  exact (InstallBootConfig_of_constructed on_disk NonRedundant "/r" no_slash_boot "/gadget"
           empty_gadget_nr (mkFileInfo 0) u' None Hst Hend).
Defined.

Lemma vars_open_error_witness :
  run on_disk (SetBootVars_in (newUboot "/r" run_mode) two_vars) broken_disk
    = mkRan (Done (Some EIO))
            [ubootenv_OpenWithFlags "/r/boot/uboot/boot.sel" OpenBestEffort] broken_disk
  ∧ ended (run on_disk (GetBootVars (newUboot "/r" run_mode) ["mode"]) broken_disk)
    = Done (Err EIO).
Proof.
  assert (answer on_disk (ubootenv_OpenWithFlags "/r/boot/uboot/boot.sel" OpenBestEffort)
            broken_disk = Err EIO) as Hopen by (vm_compute; reflexivity).
  destruct (vars_open_error on_disk (newUboot "/r" run_mode) two_vars ["mode"] broken_disk
              "/r/boot/uboot/boot.sel" EIO eq_refl Hopen)
    as (H1 & H2).
  split; [exact H1 | now rewrite H2].
Defined.

Lemma no_rootdir_panics_before_any_call_witness :
  run on_disk (Present (newUboot "" None)) full_gadget
    = mkRan (Panicked "internal error: unset rootdir") [] full_gadget
  ∧ run on_disk (RemoveKernelAssets (newUboot "" None) kernel_snap) full_gadget
    = mkRan (Panicked "internal error: unset rootdir") [] full_gadget.
Proof.
  destruct (no_rootdir_panics_before_any_call on_disk (newUboot "" None) two_vars ["mode"]
              kernel_snap kernel_file "/systems/1" full_gadget eq_refl)
    as (H1 & _ & _ & _ & H5 & _).
  split; [exact H1 | exact H5].
Defined.

Lemma ExtractKernelAssets_target_witness :
  calls (run on_disk (ExtractKernelAssets (newUboot "/r" None) kernel_snap kernel_file)
           full_gadget)
  = [ extractKernelAssetsToBootDir "/r/boot/uboot/pi-kernel_42.snap" kernel_file
        ["kernel.img"; "initrd.img"; "dtbs/*"] ].
Proof.
  now rewrite (ExtractKernelAssets_target on_disk (newUboot "/r" None) kernel_snap
                 kernel_file full_gadget ltac:(discriminate)).
Defined.

Lemma RemoveKernelAssets_parent_of_extracted_witness :
  filepath.real (Filename kernel_snap)
  ∧ calls (run on_disk (RemoveKernelAssets (newUboot "/r" None) kernel_snap) full_gadget)
    = [removeKernelAssetsFromBootDir "/r/boot/uboot" kernel_snap].
Proof.
  assert (filepath.real (Filename kernel_snap)) as Hreal by now repeat split.
  split; [exact Hreal|].
  destruct (RemoveKernelAssets_parent_of_extracted on_disk (newUboot "/r" None) kernel_snap
              kernel_file full_gadget full_gadget ltac:(discriminate) Hreal)
    as (d & dst & Hd & Hrm & _).
  assert (d = "/r/boot/uboot") as -> by (vm_compute in Hd; congruence).
  now rewrite Hrm.
Defined.

Lemma two_vars_orders :
  two_vars ≡ₚ map_to_list (list_to_map two_vars : gmap string string)
  ∧ reverse two_vars ≡ₚ map_to_list (list_to_map two_vars : gmap string string).
Proof.
  assert (map_to_list (list_to_map two_vars : gmap string string) ≡ₚ two_vars) as H.
  { apply map_to_list_to_map. cbn. apply NoDup_cons. split.
    - rewrite list_elem_of_singleton. discriminate.
    - apply NoDup_singleton. }
  split; [now symmetry|]. rewrite H. apply perm_swap.
Qed.

Lemma SetBootVars_any_order_witness :
  run on_disk (SetBootVars_in (newUboot "/r" run_mode) two_vars) (with_store ∅)
  = run on_disk (SetBootVars_in (newUboot "/r" run_mode) (reverse two_vars)) (with_store ∅).
Proof.
  destruct two_vars_orders as [H1 H2].
  exact (SetBootVars_any_order on_disk (newUboot "/r" run_mode) (list_to_map two_vars)
           two_vars (reverse two_vars) (with_store ∅) H1 H2).
Defined.

Lemma GetBootVars_after_SetBootVars_witness :
  ∃ out : gmap string string,
    ended (run on_disk (GetBootVars (newUboot "/r" run_mode) ["mode"; "status"])
             (world (run on_disk (SetBootVars_in (newUboot "/r" run_mode) two_vars)
                       (with_store {[ "status" := "trying" ]}))))
    = Done (Ok out)
    ∧ out !! "mode" = Some "try" ∧ out !! "status" = Some "trying".
Proof.
  destruct two_vars_orders as [H1 _].
  pose (w := with_store {[ "status" := "trying" ]}).
  pose (w' := world (run on_disk (SetBootVars_in (newUboot "/r" run_mode) two_vars) w)).
  pose (open := ubootenv_OpenWithFlags "/r/boot/uboot/boot.sel" OpenBestEffort).
  pose (env := mkEnv "/r/boot/uboot/boot.sel" 4096 OpenBestEffort {[ "status" := "trying" ]}).
  pose (env' := mkEnv "/r/boot/uboot/boot.sel" 4096 OpenBestEffort
                  (<["kernel" := "k2.snap"]> (<["mode" := "try"]> {[ "status" := "trying" ]}))).
  assert (answer on_disk open w = Ok env) as Ho by (vm_compute; reflexivity).
  assert (answer on_disk open w' = Ok env') as Ho' by (vm_compute; reflexivity).
  assert (Env_data env' = Env_data (SetBootVars_range env false two_vars).1) as Hd
    by (vm_compute; reflexivity).
  destruct (GetBootVars_after_SetBootVars on_disk (newUboot "/r" run_mode)
              (list_to_map two_vars) two_vars ["mode"; "status"] w w'
              "/r/boot/uboot/boot.sel" env env' eq_refl H1 Ho Ho' Hd)
    as (out & Hend & Hout).
  exists out. split; [exact Hend|]. split.
  - rewrite (Hout "mode") by (now left). reflexivity.
  - rewrite (Hout "status") by (right; now left). reflexivity.
Defined.

Lemma GetBootVars_same_names_witness :
  run on_disk (GetBootVars (newUboot "/r" run_mode) ["mode"; "status"; "mode"])
      (with_store {[ "mode" := "try" ]})
  = run on_disk (GetBootVars (newUboot "/r" run_mode) ["status"; "mode"])
        (with_store {[ "mode" := "try" ]}).
Proof.
  apply (GetBootVars_same_names on_disk (newUboot "/r" run_mode)
           ["mode"; "status"; "mode"] ["status"; "mode"] (with_store {[ "mode" := "try" ]})).
  intros name. rewrite !elem_of_cons, !elem_of_nil. tauto.
Defined.
